(** * Risk Discipline Engine of Guard-Ai: a shallow embedding

    Embeds [backend/risk_engine/models.py] ([RiskProfile] and its methods),
    the risk hooks of [backend/journal/views.py] ([perform_create],
    [perform_update], [full_reset]) and [backend/risk_engine/views.py]
    ([current], [reset_demo]); then [RiskProfileSerializer], the trade store
    as [full_reset] and [populate_demo] change it, and the read-only
    endpoints [stats], [analytics] and [insights] of [TradeViewSet].

    Modelling choices:
    - money ([DecimalField(decimal_places=2)]) is a [Z] number of cents;
    - an aware UTC [datetime] is a [Z] number of seconds since 1970-01-01,
      its [.date()] the proleptic Gregorian civil date of that second;
    - one call of [check_discipline] reads the clock once: the [now] of the
      method, and the [timezone.now()] of [lock_account] and
      [reset_daily_stats] inside it, are the same instant;
    - [self.save()] is persistence only and has no counterpart. *)

From Stdlib Require Import ZArith String Ascii Bool Lia List.
Open Scope string_scope.
Open Scope Z_scope.

(** ** Calendar *)

Record date := mkDate { year : Z; month : Z; day : Z }.

Definition date_eqb (a b : date) : bool :=
  (year a =? year b) && (month a =? month b) && (day a =? day b).

(** Days since 1970-01-01 to a civil date (H. Hinnant's algorithm). *)
Definition civil_from_days (z0 : Z) : date :=
  let z := z0 + 719468 in
  let era := z / 146097 in
  let doe := z - era * 146097 in
  let yoe := (doe - doe / 1460 + doe / 36524 - doe / 146096) / 365 in
  let y := yoe + era * 400 in
  let doy := doe - (365 * yoe + yoe / 4 - yoe / 100) in
  let mp := (5 * doy + 2) / 153 in
  let d := doy - (153 * mp + 2) / 5 + 1 in
  let m := if mp <? 10 then mp + 3 else mp - 9 in
  mkDate (if m <=? 2 then y + 1 else y) m d.

(** Civil date to days since 1970-01-01; used to write concrete instants. *)
Definition days_from_civil (y0 m d : Z) : Z :=
  let y := if m <=? 2 then y0 - 1 else y0 in
  let era := y / 400 in
  let yoe := y - era * 400 in
  let doy := (153 * (if m >? 2 then m - 3 else m + 9) + 2) / 5 + d - 1 in
  let doe := yoe * 365 + yoe / 4 - yoe / 100 + doy in
  era * 146097 + doe - 719468.

(** An aware datetime: seconds since the epoch, UTC. *)
Definition datetime := Z.

(** [datetime.date()] *)
Definition date_of (t : datetime) : date := civil_from_days (t / 86400).

(** [datetime(y, m, d, hh, mi, ss, tzinfo=UTC)] *)
Definition at_ (y m d hh mi ss : Z) : datetime :=
  days_from_civil y m d * 86400 + hh * 3600 + mi * 60 + ss.

(** [timedelta(hours=12)] in seconds. *)
Definition twelve_hours : Z := 12 * 3600.

(** ** Python string rendering *)

Definition digit_char (r : Z) : ascii := ascii_of_nat (48 + Z.to_nat r).

Fixpoint digits_aux (fuel : nat) (n : Z) (acc : string) : string :=
  match fuel with
  | O => acc
  | S f =>
      let acc' := String (digit_char (n mod 10)) acc in
      if n / 10 =? 0 then acc' else digits_aux f (n / 10) acc'
  end.

(** [str(n)] for a non-negative integer. *)
Definition str_nat (n : Z) : string := digits_aux (S (Z.to_nat (Z.log2 n))) n "".

(** [str(i)] for a Python [int]. *)
Definition str_int (i : Z) : string :=
  if i <? 0 then "-" ++ str_nat (- i) else str_nat i.

(** [str(d)] for a [Decimal] loaded from a [DecimalField(decimal_places=2)]:
    always two fractional digits, e.g. [Decimal('200.00')]. *)
Definition str_money (c : Z) : string :=
  let a := Z.abs c in
  let frac := a mod 100 in
  (if c <? 0 then "-" else "") ++ str_nat (a / 100) ++ "."
    ++ (if frac <? 10 then "0" else "") ++ str_nat frac.

(** f-string rendering of an optional [CharField] ([None] prints as None). *)
Definition str_opt (o : option string) : string :=
  match o with Some s => s | None => "None" end.

(** ** The [RiskProfile] model *)

Record profile := mkProfile {
  (* Static Limits (Configurable by user) *)
  max_daily_loss : Z;          (* cents *)
  max_trades_per_day : Z;
  max_trades_monthly : Z;
  max_trades_yearly : Z;
  (* Real-time Performance Tracking *)
  current_daily_loss : Z;      (* cents *)
  trades_today : Z;
  trades_this_month : Z;
  trades_this_year : Z;
  (* Enforcement State *)
  is_locked : bool;
  lock_reason : option string;
  locked_at : option datetime;
  (* Reset Timestamps *)
  last_reset_date : date;
  last_monthly_reset : date;
  last_yearly_reset : date
}.

(** A profile created with the field defaults at instant [t]
    ([RiskProfile.objects.create(user=..., max_daily_loss=200.00)]). *)
Definition default_profile (t : datetime) : profile :=
  mkProfile 20000 5 100 1000 0 0 0 0 false None None
    (date_of t) (date_of t) (date_of t).

(** [reset_daily_stats] *)
Definition reset_daily_stats (now : datetime) (p : profile) : profile :=
  mkProfile (max_daily_loss p) (max_trades_per_day p) (max_trades_monthly p)
    (max_trades_yearly p)
    0 0 (trades_this_month p) (trades_this_year p)
    false None None
    (date_of now) (last_monthly_reset p) (last_yearly_reset p).

(** [reset_monthly_stats] *)
Definition reset_monthly_stats (now : datetime) (p : profile) : profile :=
  mkProfile (max_daily_loss p) (max_trades_per_day p) (max_trades_monthly p)
    (max_trades_yearly p)
    (current_daily_loss p) (trades_today p) 0 (trades_this_year p)
    (is_locked p) (lock_reason p) (locked_at p)
    (last_reset_date p) (date_of now) (last_yearly_reset p).

(** [reset_yearly_stats] *)
Definition reset_yearly_stats (now : datetime) (p : profile) : profile :=
  mkProfile (max_daily_loss p) (max_trades_per_day p) (max_trades_monthly p)
    (max_trades_yearly p)
    (current_daily_loss p) (trades_today p) (trades_this_month p) 0
    (is_locked p) (lock_reason p) (locked_at p)
    (last_reset_date p) (last_monthly_reset p) (date_of now).

(** [lock_account(reason)] *)
Definition lock_account (reason : string) (now : datetime) (p : profile)
  : profile :=
  mkProfile (max_daily_loss p) (max_trades_per_day p) (max_trades_monthly p)
    (max_trades_yearly p)
    (current_daily_loss p) (trades_today p) (trades_this_month p)
    (trades_this_year p)
    true (Some reason) (Some now)
    (last_reset_date p) (last_monthly_reset p) (last_yearly_reset p).

(** The three rollover tests of [check_discipline]. *)
Definition daily_stale (today : date) (p : profile) : bool :=
  negb (date_eqb (last_reset_date p) today).

Definition monthly_stale (today : date) (p : profile) : bool :=
  negb (month (last_monthly_reset p) =? month today)
  || negb (year (last_monthly_reset p) =? year today).

Definition yearly_stale (today : date) (p : profile) : bool :=
  negb (year (last_yearly_reset p) =? year today).

(** "Automatic Stat Periodic Resets": the first three statements of
    [check_discipline], in source order. *)
Definition periodic_resets (now : datetime) (p : profile) : profile :=
  let today := date_of now in
  let p1 := if daily_stale today p then reset_daily_stats now p else p in
  let p2 := if monthly_stale today p1 then reset_monthly_stats now p1 else p1 in
  if yearly_stale today p2 then reset_yearly_stats now p2 else p2.

(** [(allowed, reason)] *)
Definition decision := (bool * string)%type.

(** [locked_at and now > locked_at + timedelta(hours=12)] *)
Definition lock_expired (now : datetime) (p : profile) : bool :=
  match locked_at p with
  | Some t => t + twelve_hours <? now
  | None => false
  end.

(** [check_discipline]: the updated profile and the returned tuple. *)
Definition check_discipline (p0 : profile) (now : datetime)
  : profile * decision :=
  let p := periodic_resets now p0 in
  if is_locked p then
    if lock_expired now p then
      (reset_daily_stats now p, (true, "Trading Allowed (Lock Expired)"))
    else (p, (false, "Account Locked: " ++ str_opt (lock_reason p)))
  else if max_daily_loss p <=? current_daily_loss p then
    (lock_account ("Daily Loss Limit ($" ++ str_money (max_daily_loss p)
                   ++ ") hit.") now p,
     (false, "Daily Loss Limit Exceeded"))
  else if max_trades_per_day p <=? trades_today p then
    (lock_account ("Max Daily Trades (" ++ str_int (max_trades_per_day p)
                   ++ ") hit.") now p,
     (false, "Max Daily Trades Limit Exceeded"))
  else if max_trades_monthly p <=? trades_this_month p then
    (lock_account ("Max Monthly Trades (" ++ str_int (max_trades_monthly p)
                   ++ ") hit.") now p,
     (false, "Max Monthly Trades Limit Exceeded"))
  else if max_trades_yearly p <=? trades_this_year p then
    (lock_account ("Max Yearly Trades (" ++ str_int (max_trades_yearly p)
                   ++ ") hit.") now p,
     (false, "Max Yearly Trades Limit Exceeded"))
  else (p, (true, "Trading Allowed")).

(** ** Activity recorder: the risk hooks of [journal/views.py] *)

Inductive trade_status := OPEN | CLOSED.
Inductive trade_result := WIN | LOSS | BREAKEVEN.

Definition status_eqb (a b : trade_status) : bool :=
  match a, b with OPEN, OPEN | CLOSED, CLOSED => true | _, _ => false end.

Definition is_loss (r : option trade_result) : bool :=
  match r with Some LOSS => true | _ => false end.

(** Python truthiness of the nullable [Decimal] field [trade.pnl]. *)
Definition pnl_truthy (pnl : option Z) : bool :=
  match pnl with Some x => negb (x =? 0) | None => false end.

(** [profile.trades_today += 1] and its monthly and yearly siblings. *)
Definition count_trade (p : profile) : profile :=
  mkProfile (max_daily_loss p) (max_trades_per_day p) (max_trades_monthly p)
    (max_trades_yearly p)
    (current_daily_loss p) (trades_today p + 1) (trades_this_month p + 1)
    (trades_this_year p + 1)
    (is_locked p) (lock_reason p) (locked_at p)
    (last_reset_date p) (last_monthly_reset p) (last_yearly_reset p).

(** [profile.current_daily_loss += abs(trade.pnl)] *)
Definition add_loss (x : Z) (p : profile) : profile :=
  mkProfile (max_daily_loss p) (max_trades_per_day p) (max_trades_monthly p)
    (max_trades_yearly p)
    (current_daily_loss p + Z.abs x) (trades_today p) (trades_this_month p)
    (trades_this_year p)
    (is_locked p) (lock_reason p) (locked_at p)
    (last_reset_date p) (last_monthly_reset p) (last_yearly_reset p).

(** [TradeViewSet.perform_create], risk part (after the trade is saved):
    the profile afterwards and the decision of [check_discipline], which the
    view discards. *)
Definition on_trade_opened (p : profile) (now : datetime)
  : profile * decision :=
  check_discipline (count_trade p) now.

(** [TradeViewSet.perform_update], risk part: [old_status] is the stored
    status before the update, [status], [result] and [pnl] those of the
    saved trade. [None] as decision: [check_discipline] is not called. *)
Definition on_trade_closed (old_status status : trade_status)
    (result : option trade_result) (pnl : option Z)
    (p : profile) (now : datetime) : profile * option decision :=
  if status_eqb old_status OPEN && status_eqb status CLOSED then
    if is_loss result && pnl_truthy pnl then
      let x := match pnl with Some x => x | None => 0 end in
      let '(p', d) := check_discipline (add_loss x p) now in (p', Some d)
    else (p, None)
  else (p, None).

(** [TradeViewSet.full_reset], risk part ([get_or_create] then
    [reset_daily_stats]). *)
Definition full_reset (p : option profile) (now : datetime) : profile :=
  match p with
  | Some p => reset_daily_stats now p
  | None => reset_daily_stats now (default_profile now)
  end.

(** [RiskProfileViewSet.reset_demo] *)
Definition reset_demo (p : profile) (now : datetime) : profile :=
  reset_daily_stats now p.

(** ** Limit edits: [RiskProfileViewSet.current] with PATCH *)

(** The request body: any of the four limits may be sent. *)
Record limits_patch := mkPatch {
  req_max_daily_loss : option Z;       (* cents *)
  req_max_trades_per_day : option Z;
  req_max_trades_monthly : option Z;
  req_max_trades_yearly : option Z
}.

Inductive patch_outcome :=
| Updated
| Rejected (message : string).

Definition locked_message : string :=
  "Changes to Risk limits are prohibited while the terminal is locked. Integrity is key.".

(** [DecimalField(max_digits=10, decimal_places=2)] of the serializer:
    at most eight integer digits. The bounds that the integer fields may
    get from the database backend are not modelled. *)
Definition patch_valid (r : limits_patch) : bool :=
  match req_max_daily_loss r with
  | Some c => Z.abs c <? 10 ^ 10
  | None => true
  end.

Definition opt_default (o : option Z) (d : Z) : Z :=
  match o with Some v => v | None => d end.

(** [RiskProfileSerializer(profile, data=..., partial=True).save()]: the
    serializer's writable fields are [max_daily_loss] and
    [max_trades_per_day]; other keys of the request are ignored. *)
Definition serializer_save (r : limits_patch) (p : profile) : profile :=
  mkProfile (opt_default (req_max_daily_loss r) (max_daily_loss p))
    (opt_default (req_max_trades_per_day r) (max_trades_per_day p))
    (max_trades_monthly p) (max_trades_yearly p)
    (current_daily_loss p) (trades_today p) (trades_this_month p)
    (trades_this_year p)
    (is_locked p) (lock_reason p) (locked_at p)
    (last_reset_date p) (last_monthly_reset p) (last_yearly_reset p).

Definition update_limits (p : profile) (r : limits_patch)
  : profile * patch_outcome :=
  if is_locked p then (p, Rejected locked_message)
  else if patch_valid r then (serializer_save r p, Updated)
  else (p, Rejected "serializer validation error").


(** ** Reachable profiles *)

(** Every state the code can produce: a freshly provisioned profile, then
    any sequence of the operations above. [lock_account] is only called from
    [check_discipline]. *)
Inductive reachable : profile -> Prop :=
| reach_init t : reachable (default_profile t)
| reach_check p now : reachable p -> reachable (fst (check_discipline p now))
| reach_opened p now : reachable p -> reachable (fst (on_trade_opened p now))
| reach_closed os st r pnl p now :
    reachable p -> reachable (fst (on_trade_closed os st r pnl p now))
| reach_full_reset p now : reachable p -> reachable (full_reset (Some p) now)
| reach_reset_demo p now : reachable p -> reachable (reset_demo p now)
| reach_update p r : reachable p -> reachable (fst (update_limits p r)).

(** [isLocked] iff [lockReason] is a non-empty string and [lockedAt] is set. *)
Definition lock_consistent (p : profile) : Prop :=
  is_locked p = true <->
  ((exists s, lock_reason p = Some s /\ s <> "") /\ locked_at p <> None).

(** ** Reading the profile: [RiskProfileSerializer] and [current] *)

(** [RiskProfileSerializer(profile).data]. [to_representation] reads the
    declared fields in order, so [max_daily_loss] .. [lock_reason] are read
    before [get_status] runs [check_discipline] (the [id] field is left
    out). Money fields stay in cents. *)
Record profile_repr := mkRepr {
  r_max_daily_loss : Z;
  r_max_trades_per_day : Z;
  r_current_daily_loss : Z;
  r_trades_today : Z;
  r_is_locked : bool;
  r_lock_reason : option string;
  r_status : decision
}.

Definition serialize (p : profile) (now : datetime) : profile * profile_repr :=
  let '(p', d) := check_discipline p now in
  (p', mkRepr (max_daily_loss p) (max_trades_per_day p) (current_daily_loss p)
         (trades_today p) (is_locked p) (lock_reason p) d).

(** [RiskProfileViewSet.get_object]: the user's profile, or a new one with
    the defaults ([None]: [RiskProfile.DoesNotExist]). *)
Definition get_object (stored : option profile) (now : datetime) : profile :=
  match stored with Some p => p | None => default_profile now end.

(** [current] with GET. *)
Definition current_get (stored : option profile) (now : datetime)
  : profile * profile_repr :=
  serialize (get_object stored now) now.

Inductive patch_response :=
| PatchOk (data : profile_repr)
| PatchRejected (message : string).

(** [current] with PATCH: the lock guard and [serializer.save()] of
    [update_limits], then [Response(serializer.data)], which serializes the
    saved profile and so runs [check_discipline] on it. *)
Definition current_patch (stored : option profile) (r : limits_patch)
    (now : datetime) : profile * patch_response :=
  match update_limits (get_object stored now) r with
  | (p1, Updated) => let '(p2, rep) := serialize p1 now in (p2, PatchOk rep)
  | (p1, Rejected m) => (p1, PatchRejected m)
  end.

(** ** Trades and strategies: [populate_demo], [full_reset], [analytics] *)

Record strategy := mkStrategy { s_id : Z; s_user : Z }.

Record trade := mkTrade {
  t_user : Z;
  t_strategy : option Z;
  t_status : trade_status;
  t_result : option trade_result;
  t_pnl : option Z;            (* cents *)
  t_followed_plan : bool;
  t_created_at : datetime
}.

(** [Trade.objects.filter(user=u).delete()] *)
Definition delete_user_trades (u : Z) (ts : list trade) : list trade :=
  filter (fun t => negb (t_user t =? u)) ts.

(** [full_reset], trade and strategy part: the user's trades are deleted,
    then the user's strategies, whose deletion cascades
    ([on_delete=CASCADE]) to every trade that points at one of them. *)
Definition full_reset_store (u : Z) (ts : list trade) (ss : list strategy)
  : list trade * list strategy :=
  let ts1 := delete_user_trades u ts in
  let gone := map s_id (filter (fun s => s_user s =? u) ss) in
  let ss' := filter (fun s => negb (s_user s =? u)) ss in
  (filter (fun t => match t_strategy t with
                    | Some sid => negb (existsb (Z.eqb sid) gone)
                    | None => true
                    end) ts1, ss').

(** One iteration of the loop of [populate_demo]. The random draws are
    inputs: [k] the index picked by
    [random.choice(['WIN', 'LOSS', 'WIN', 'BREAKEVEN'])], [n] the value of
    the one [random.randint] the conditional expression calls, [f] the
    outcome of [random.random() > 0.2]. The [created_at] passed to
    [Trade.objects.create] is overridden: the field is [auto_now_add], so
    it takes the current instant. *)
Definition demo_result (k : nat) : trade_result :=
  nth k (WIN :: LOSS :: WIN :: BREAKEVEN :: nil) BREAKEVEN.

Definition demo_pnl (res : trade_result) (n : Z) : Z :=
  match res with WIN | LOSS => n | BREAKEVEN => 0 end.

Definition demo_trade (u sid : Z) (now : datetime) (draw : nat * Z * bool)
  : trade :=
  let '(k, n, f) := draw in
  let res := demo_result k in
  mkTrade u (Some sid) CLOSED (Some res) (Some (demo_pnl res n * 100)) f now.

(** [populate_demo], trade part, given the id [sid] of the strategy
    returned by [get_or_create] and the draws of the 20 iterations. *)
Definition populate_demo_store (u sid : Z) (now : datetime)
    (draws : nat -> nat * Z * bool) (ts : list trade) : list trade :=
  app (delete_user_trades u ts)
      (map (fun i => demo_trade u sid now (draws i)) (seq 0 20)).

(** [randint(50, 200)] for a WIN, [randint(-150, -50)] for a LOSS. *)
Definition draw_ok (draw : nat * Z * bool) : Prop :=
  let '(k, n, _) := draw in
  (k < 4)%nat /\
  (demo_result k = WIN -> 50 <= n <= 200) /\
  (demo_result k = LOSS -> -150 <= n <= -50).

(** A trade as [populate_demo] creates it at instant [now]. *)
Definition demo_shape (now : datetime) (t : trade) : Prop :=
  t_status t = CLOSED /\ t_created_at t = now /\
  match t_result t, t_pnl t with
  | Some WIN, Some c => 5000 <= c <= 20000
  | Some LOSS, Some c => -15000 <= c <= -5000
  | Some BREAKEVEN, Some c => c = 0
  | _, _ => False
  end.

(** [analytics]: [recent_trades] of iteration [i] ([trades[:i+1]], cut to
    its last five entries when longer). *)
Definition recent_window {A : Type} (ts : list A) (i : nat) : list A :=
  let r := firstn (S i) ts in
  if Nat.ltb 5 (length r) then skipn (length r - 5) r else r.

(** [disc_count] and [len(recent_trades)], the numerator and denominator of
    the discipline score of iteration [i]. *)
Definition discipline_point (ts : list trade) (i : nat) : nat * nat :=
  let w := recent_window ts i in
  (length (filter t_followed_plan w), length w).

(** A counter after an operation: its old value or zero. *)
Definition kept_or_zero (old new : Z) : Prop := new = old \/ new = 0.

(** The live counters are non-negative. *)
Definition counters_nonneg (p : profile) : Prop :=
  0 <= current_daily_loss p /\ 0 <= trades_today p /\
  0 <= trades_this_month p /\ 0 <= trades_this_year p.

(** [TradeViewSet.get_queryset]: the user's trades, narrowed to one
    strategy when [?strategy=<id>] is given. *)
Definition get_queryset (u : Z) (strategy_id : option Z) (ts : list trade)
  : list trade :=
  let q := filter (fun t => t_user t =? u) ts in
  match strategy_id with
  | Some sid => filter (fun t => match t_strategy t with
                                  | Some s => s =? sid
                                  | None => false
                                  end) q
  | None => q
  end.

Definition result_is (r : trade_result) (t : trade) : bool :=
  match r, t_result t with
  | WIN, Some WIN | LOSS, Some LOSS | BREAKEVEN, Some BREAKEVEN => true
  | _, _ => false
  end.

(** SQL [SUM] over a nullable column: NULL when no value is present. *)
Definition sql_sum (xs : list (option Z)) : option Z :=
  fold_right (fun x acc => match x, acc with
                           | Some a, Some b => Some (a + b)
                           | Some a, None => Some a
                           | None, acc => acc
                           end) None xs.

(** The counts of [TradeViewSet.stats] and [total_pnl]
    ([aggregate(Sum('pnl'))['total'] or 0]). *)
Record stats_counts := mkStats {
  total_trades : nat; wins : nat; losses : nat; disciplined_trades : nat;
  total_pnl : Z }.

Definition stats (q : list trade) : stats_counts :=
  mkStats (length q) (length (filter (result_is WIN) q))
    (length (filter (result_is LOSS) q)) (length (filter t_followed_plan q))
    (match sql_sum (map t_pnl q) with Some s => s | None => 0 end).

(** [TradeViewSet.insights]: a trade as the log reads it, with the name of
    its strategy ([None] when [t.strategy] is null) and its [notes]. *)
Record log_row := mkRow {
  row_trade : trade; row_strategy_name : option string; row_notes : string }.

Definition newline : ascii := "010"%char.

Definition pad2 (n : Z) : string := (if n <? 10 then "0" else "") ++ str_nat n.

Definition pad4 (n : Z) : string :=
  (if n <? 10 then "000" else if n <? 100 then "00" else if n <? 1000 then "0" else "")
  ++ str_nat n.

(** [str(date)]: [YYYY-MM-DD]. *)
Definition str_date (d : date) : string :=
  pad4 (year d) ++ "-" ++ pad2 (month d) ++ "-" ++ pad2 (day d).

Definition str_result (r : option trade_result) : string :=
  match r with
  | Some WIN => "WIN" | Some LOSS => "LOSS" | Some BREAKEVEN => "BREAKEVEN"
  | None => "None"
  end.

Definition str_pnl (pnl : option Z) : string :=
  match pnl with Some c => str_money c | None => "None" end.

Definition str_bool (b : bool) : string := if b then "True" else "False".

Definition log_header : string :=
  "Date | Strategy | Result | PnL | Followed Plan | Notes" ++ String newline "".

(** One [trade_data += f"..."] line. *)
Definition log_line (r : log_row) : string :=
  let t := row_trade r in
  str_date (date_of (t_created_at t)) ++ " | "
  ++ (match row_strategy_name r with Some n => n | None => "Unknown" end) ++ " | "
  ++ str_result (t_result t) ++ " | " ++ str_pnl (t_pnl t) ++ " | "
  ++ str_bool (t_followed_plan t) ++ " | " ++ row_notes r ++ String newline "".

(** The fixed "Insufficient data" response, or the call
    [ai_service.analyze_behavior(trade_data)]. *)
Inductive insights_outcome :=
  | InsightsFallback
  | AnalyzeBehavior (trade_data : string).

(** [rows] is the queryset ordered by [-created_at]. *)
Definition insights (rows : list log_row) : insights_outcome :=
  match firstn 30 rows with
  | nil => InsightsFallback
  | l => AnalyzeBehavior (fold_left (fun acc r => acc ++ log_line r) l log_header)
  end.

Fixpoint count_char (c : ascii) (s : string) : nat :=
  match s with
  | EmptyString => 0
  | String a s' => (if Ascii.eqb a c then 1 else 0) + count_char c s'
  end.

(** ** Concrete instants and profiles used by the examples *)

Definition oct16_1100 : datetime := at_ 2026 10 16 11 0 0.
Definition oct16 : date := date_of oct16_1100.

(** Five trades opened in a row on a fresh profile, then a sixth. *)
Fixpoint open_n (n : nat) (p : profile) (now : datetime) : profile :=
  match n with
  | O => p
  | S k => fst (on_trade_opened (open_n k p now) now)
  end.

Example five_trades_lock :
  snd (on_trade_opened (open_n 5 (default_profile oct16_1100) oct16_1100)
         oct16_1100)
  = (false, "Account Locked: Max Daily Trades (5) hit.").
Proof. vm_compute. reflexivity. Qed.

Example yesterday_lock_cleared :
  let p := fst (check_discipline
                  (add_loss 25000 (default_profile (oct16_1100 - 86400)))
                  (oct16_1100 - 86400)) in
  is_locked p = true /\
  check_discipline p oct16_1100
  = (reset_daily_stats oct16_1100 p, (true, "Trading Allowed")).
Proof. vm_compute. split; reflexivity. Qed.

(** * Properties *)

(** ** Rollover markers *)

Lemma date_eqb_refl (d : date) : date_eqb d d = true.
Proof. unfold date_eqb. now rewrite !Z.eqb_refl. Qed.

Ltac unfold_stale :=
  unfold daily_stale, monthly_stale, yearly_stale in *.

Lemma stale_reset_daily (now : datetime) (t : date) (p : profile) :
  daily_stale (date_of now) (reset_daily_stats now p) = false /\
  monthly_stale t (reset_daily_stats now p) = monthly_stale t p /\
  yearly_stale t (reset_daily_stats now p) = yearly_stale t p.
Proof. unfold_stale; cbn. now rewrite date_eqb_refl. Qed.

Lemma stale_reset_monthly (now : datetime) (t : date) (p : profile) :
  daily_stale t (reset_monthly_stats now p) = daily_stale t p /\
  monthly_stale (date_of now) (reset_monthly_stats now p) = false /\
  yearly_stale t (reset_monthly_stats now p) = yearly_stale t p.
Proof. unfold_stale; cbn. now rewrite !Z.eqb_refl. Qed.

Lemma stale_reset_yearly (now : datetime) (t : date) (p : profile) :
  daily_stale t (reset_yearly_stats now p) = daily_stale t p /\
  monthly_stale t (reset_yearly_stats now p) = monthly_stale t p /\
  yearly_stale (date_of now) (reset_yearly_stats now p) = false.
Proof. unfold_stale; cbn. now rewrite !Z.eqb_refl. Qed.

Lemma stale_lock_account (r : string) (now : datetime) (t : date)
    (p : profile) :
  daily_stale t (lock_account r now p) = daily_stale t p /\
  monthly_stale t (lock_account r now p) = monthly_stale t p /\
  yearly_stale t (lock_account r now p) = yearly_stale t p.
Proof. unfold_stale; cbn. auto. Qed.

(** After the periodic resets, none of the three periods is stale. *)
Lemma periodic_resets_current (now : datetime) (p : profile) :
  daily_stale (date_of now) (periodic_resets now p) = false /\
  monthly_stale (date_of now) (periodic_resets now p) = false /\
  yearly_stale (date_of now) (periodic_resets now p) = false.
Proof.
  unfold periodic_resets.
  pose proof (stale_reset_daily now (date_of now)) as D.
  pose proof (stale_reset_monthly now (date_of now)) as M.
  pose proof (stale_reset_yearly now (date_of now)) as Y.
  destruct (daily_stale (date_of now) p) eqn:E1;
  [ set (p1 := reset_daily_stats now p);
    assert (daily_stale (date_of now) p1 = false) by apply D
  | set (p1 := p) ];
  (destruct (monthly_stale (date_of now) p1) eqn:E2;
   [ set (p2 := reset_monthly_stats now p1);
     assert (daily_stale (date_of now) p2 = false /\
             monthly_stale (date_of now) p2 = false) as [F1 F2]
       by (unfold p2; rewrite (proj1 (M p1)); split; [assumption | apply M])
   | set (p2 := p1);
     assert (daily_stale (date_of now) p2 = false /\
             monthly_stale (date_of now) p2 = false) as [F1 F2]
       by (split; assumption) ]);
  (destruct (yearly_stale (date_of now) p2) eqn:E3;
   [ rewrite (proj1 (Y p2)), (proj1 (proj2 (Y p2))); split; [ | split];
     auto; apply Y
   | auto ]).
Qed.

(** On a profile whose markers are current the resets do nothing. *)
Lemma periodic_resets_noop (now : datetime) (p : profile) :
  daily_stale (date_of now) p = false ->
  monthly_stale (date_of now) p = false ->
  yearly_stale (date_of now) p = false ->
  periodic_resets now p = p.
Proof.
  intros D M Y. unfold periodic_resets. cbn zeta. now rewrite D, M, Y.
Qed.

Lemma lock_account_not_expired (r : string) (now : datetime) (p : profile) :
  lock_expired now (lock_account r now p) = false.
Proof. unfold lock_expired, twelve_hours; cbn. apply Z.ltb_ge. lia. Qed.

Lemma lock_account_locked (r : string) (now : datetime) (p : profile) :
  is_locked (lock_account r now p) = true.
Proof. reflexivity. Qed.


Ltac fresh_noop A B C :=
  first
    [ rewrite (periodic_resets_noop _ _ A B C)
    | match goal with
      | |- context [periodic_resets ?now (lock_account ?r ?now ?q)] =>
          pose proof (stale_lock_account r now (date_of now) q) as [L1 [L2 L3]];
          rewrite (periodic_resets_noop now (lock_account r now q));
          [ | congruence | congruence | congruence ]
      end ].

Lemma daily_fresh (now : datetime) (p : profile) :
  last_reset_date p = date_of now -> daily_stale (date_of now) p = false.
Proof. intros E. unfold daily_stale. now rewrite E, date_eqb_refl. Qed.

(** The resets never touch the limits. *)
Lemma periodic_resets_limits (now : datetime) (p : profile) :
  max_daily_loss (periodic_resets now p) = max_daily_loss p /\
  max_trades_per_day (periodic_resets now p) = max_trades_per_day p /\
  max_trades_monthly (periodic_resets now p) = max_trades_monthly p /\
  max_trades_yearly (periodic_resets now p) = max_trades_yearly p.
Proof.
  unfold periodic_resets; cbn zeta.
  destruct (daily_stale _ p); destruct (monthly_stale _ _);
    destruct (yearly_stale _ _); cbn; auto.
Qed.

(** Without a day rollover, the resets only zero the stale period counters. *)
Lemma periodic_resets_same_day (now : datetime) (p : profile) :
  daily_stale (date_of now) p = false ->
  let q := periodic_resets now p in
  is_locked q = is_locked p /\ lock_reason q = lock_reason p /\
  locked_at q = locked_at p /\
  current_daily_loss q = current_daily_loss p /\
  trades_today q = trades_today p /\
  trades_this_month q
    = (if monthly_stale (date_of now) p then 0 else trades_this_month p) /\
  trades_this_year q
    = (if yearly_stale (date_of now) p then 0 else trades_this_year p).
Proof.
  intros D. unfold periodic_resets; cbn zeta. rewrite D.
  destruct (monthly_stale (date_of now) p) eqn:M.
  - rewrite (proj2 (proj2 (stale_reset_monthly now (date_of now) p))).
    destruct (yearly_stale (date_of now) p); cbn; auto 10.
  - destruct (yearly_stale (date_of now) p); cbn; auto 10.
Qed.

(** A locked profile checked on the day of its last daily reset: the
    lock branch, with or without cooldown expiry. *)
Lemma locked_same_day_check (p : profile) (T now : datetime) :
  is_locked p = true -> locked_at p = Some T ->
  last_reset_date p = date_of now ->
  (now <= T + twelve_hours ->
   check_discipline p now
     = (periodic_resets now p,
        (false, "Account Locked: " ++ str_opt (lock_reason p))) /\
   is_locked (periodic_resets now p) = true /\
   locked_at (periodic_resets now p) = Some T) /\
  (T + twelve_hours < now ->
   snd (check_discipline p now) = (true, "Trading Allowed (Lock Expired)") /\
   is_locked (fst (check_discipline p now)) = false /\
   lock_reason (fst (check_discipline p now)) = None /\
   locked_at (fst (check_discipline p now)) = None /\
   current_daily_loss (fst (check_discipline p now)) = 0 /\
   trades_today (fst (check_discipline p now)) = 0 /\
   trades_this_month (fst (check_discipline p now))
     = (if monthly_stale (date_of now) p then 0 else trades_this_month p) /\
   trades_this_year (fst (check_discipline p now))
     = (if yearly_stale (date_of now) p then 0 else trades_this_year p)).
Proof.
  intros L A D.
  pose proof (periodic_resets_same_day now p (daily_fresh now p D))
    as [L' [R' [A' [_ [_ [M' Y']]]]]].
  unfold check_discipline; cbv zeta.
  set (q := periodic_resets now p) in *.
  rewrite L', L.
  unfold lock_expired. rewrite A', A.
  split; intros H.
  - replace (T + twelve_hours <? now) with false by (symmetry; apply Z.ltb_ge; lia).
    rewrite R'. repeat split; congruence.
  - replace (T + twelve_hours <? now) with true by (symmetry; apply Z.ltb_lt; lia).
    cbn [fst snd reset_daily_stats is_locked lock_reason locked_at
         current_daily_loss trades_today trades_this_month trades_this_year].
    repeat split; assumption.
Qed.

(** After a call, none of the three periods is stale. *)
Lemma check_discipline_current (p : profile) (now : datetime) :
  daily_stale (date_of now) (fst (check_discipline p now)) = false /\
  monthly_stale (date_of now) (fst (check_discipline p now)) = false /\
  yearly_stale (date_of now) (fst (check_discipline p now)) = false.
Proof.
  pose proof (periodic_resets_current now p) as [A [B C]].
  unfold check_discipline; cbv zeta.
  set (q := periodic_resets now p) in *.
  repeat match goal with |- context [if ?b then _ else _] => destruct b end;
    cbn [fst];
    first
      [ exact (conj A (conj B C))
      | pose proof (stale_reset_daily now (date_of now) q) as [D1 [D2 D3]];
        rewrite D2, D3; auto
      | match goal with
        | |- context [lock_account ?r _ _] =>
            pose proof (stale_lock_account r now (date_of now) q)
              as [D1 [D2 D3]];
            rewrite D1, D2, D3; auto
        end ].
Qed.

(** ** C3: two calls at the same instant *)




(** ** C1: cooldown boundary *)

(** C1 counterexample: locked at 11:00 with three trades this month;
    at 23:01 the same day the cooldown has expired and the call returns
    "Trading Allowed (Lock Expired)", but [trades_this_month] is still 3. *)
Lemma C1_counterexample :
  let p := mkProfile 20000 5 100 1000 20000 2 3 3
             true (Some "Daily Loss Limit ($200.00) hit.") (Some oct16_1100)
             oct16 oct16 oct16 in
  let now := oct16_1100 + twelve_hours + 60 in
  snd (check_discipline p now) = (true, "Trading Allowed (Lock Expired)") /\
  trades_this_month (fst (check_discipline p now)) = 3 /\
  trades_this_year (fst (check_discipline p now)) = 3.
Proof. vm_compute. auto. Qed.

(** C1 (amended). A profile locked at [T], checked at [now] on the day of
    its last daily reset: up to [T + 12h] the call returns
    [(false, "Account Locked: " + lock_reason)] and the lock stays; after
    [T + 12h] it returns [(true, "Trading Allowed (Lock Expired)")], clears
    the lock and zeroes [current_daily_loss] and [trades_today], while
    [trades_this_month] and [trades_this_year] are zero only when their own
    period has rolled over and are otherwise unchanged. *)
Theorem C1_cooldown_boundary (p : profile) (T now : datetime) :
  is_locked p = true -> locked_at p = Some T ->
  last_reset_date p = date_of now ->
  (now <= T + twelve_hours ->
   check_discipline p now
     = (periodic_resets now p,
        (false, "Account Locked: " ++ str_opt (lock_reason p))) /\
   is_locked (periodic_resets now p) = true /\
   locked_at (periodic_resets now p) = Some T) /\
  (T + twelve_hours < now ->
   snd (check_discipline p now) = (true, "Trading Allowed (Lock Expired)") /\
   is_locked (fst (check_discipline p now)) = false /\
   lock_reason (fst (check_discipline p now)) = None /\
   locked_at (fst (check_discipline p now)) = None /\
   current_daily_loss (fst (check_discipline p now)) = 0 /\
   trades_today (fst (check_discipline p now)) = 0 /\
   trades_this_month (fst (check_discipline p now))
     = (if monthly_stale (date_of now) p then 0 else trades_this_month p) /\
   trades_this_year (fst (check_discipline p now))
     = (if yearly_stale (date_of now) p then 0 else trades_this_year p)).
Proof. apply locked_same_day_check. Qed.

(** C1 witness: locked at 11:00, checked at 22:59 and at 23:01. *)
Lemma C1_witness :
  let p := mkProfile 20000 5 100 1000 20000 2 3 3
             true (Some "Daily Loss Limit ($200.00) hit.") (Some oct16_1100)
             oct16 oct16 oct16 in
  snd (check_discipline p (oct16_1100 + twelve_hours + 60))
    = (true, "Trading Allowed (Lock Expired)") /\
  check_discipline p (oct16_1100 + twelve_hours - 60)
    = (periodic_resets (oct16_1100 + twelve_hours - 60) p,
       (false, "Account Locked: Daily Loss Limit ($200.00) hit.")).
Proof.
  intros p.
  assert (H1 := C1_cooldown_boundary p oct16_1100
                  (oct16_1100 + twelve_hours + 60)
                  eq_refl eq_refl ltac:(vm_compute; reflexivity)).
  assert (H2 := C1_cooldown_boundary p oct16_1100
                  (oct16_1100 + twelve_hours - 60)
                  eq_refl eq_refl ltac:(vm_compute; reflexivity)).
  split.
  - apply (proj2 H1). unfold twelve_hours. lia.
  - apply (proj1 H2). unfold twelve_hours. lia.
Defined.

(** ** C2 and C4: closing a trade *)

Lemma add_loss_stale (x : Z) (p : profile) (t : date) :
  daily_stale t (add_loss x p) = daily_stale t p.
Proof. reflexivity. Qed.

(** On an unlocked profile without a day rollover, [check_discipline]
    leaves [current_daily_loss] as it is. *)
Lemma check_discipline_keeps_loss (p : profile) (now : datetime) :
  is_locked p = false -> daily_stale (date_of now) p = false ->
  current_daily_loss (fst (check_discipline p now)) = current_daily_loss p.
Proof.
  intros L D.
  pose proof (periodic_resets_same_day now p D) as [L' [_ [_ [C' _]]]].
  unfold check_discipline; cbv zeta.
  set (q := periodic_resets now p) in *.
  rewrite L', L.
  repeat match goal with |- context [if ?b then _ else _] => destruct b end;
    cbn; exact C'.
Qed.

(** C2 counterexample: the call that trips the daily loss lock returns
    "Daily Loss Limit Exceeded", not "Account Locked: ...". *)
Lemma C2_counterexample :
  let p := add_loss 18000 (default_profile oct16_1100) in
  current_daily_loss
    (fst (on_trade_closed OPEN CLOSED (Some LOSS) (Some (-2500)) p oct16_1100))
    = 20500 /\
  snd (on_trade_closed OPEN CLOSED (Some LOSS) (Some (-2500)) p oct16_1100)
    = Some (false, "Daily Loss Limit Exceeded") /\
  snd (on_trade_closed OPEN CLOSED (Some LOSS) (Some (-2500)) p oct16_1100)
    <> Some (false, "Account Locked: Daily Loss Limit ($200) hit.").
Proof. vm_compute. split; [reflexivity | split; [reflexivity | discriminate]]. Qed.

(** C2 (amended). An unlocked profile with [current_daily_loss = 180.00]
    and [max_daily_loss = 200.00], whose last daily reset is today: closing
    a LOSS trade with [pnl = -25.00] sets [current_daily_loss] to [205.00],
    locks the account with reason "Daily Loss Limit ($200.00) hit." and
    returns [(false, "Daily Loss Limit Exceeded")]; the next check returns
    [(false, "Account Locked: Daily Loss Limit ($200.00) hit.")]. *)
Theorem C2_loss_close_locks (p : profile) (now : datetime) :
  is_locked p = false -> last_reset_date p = date_of now ->
  current_daily_loss p = 18000 -> max_daily_loss p = 20000 ->
  let r := on_trade_closed OPEN CLOSED (Some LOSS) (Some (-2500)) p now in
  current_daily_loss (fst r) = 20500 /\
  is_locked (fst r) = true /\
  lock_reason (fst r) = Some "Daily Loss Limit ($200.00) hit." /\
  locked_at (fst r) = Some now /\
  snd r = Some (false, "Daily Loss Limit Exceeded") /\
  snd (check_discipline (fst r) now)
    = (false, "Account Locked: Daily Loss Limit ($200.00) hit.").
Proof.
  intros L D C M r.
  assert (D' : daily_stale (date_of now) (add_loss (-2500) p) = false)
    by (rewrite add_loss_stale; now apply daily_fresh).
  pose proof (periodic_resets_same_day now _ D') as [L' [_ [_ [C' _]]]].
  pose proof (periodic_resets_limits now (add_loss (-2500) p)) as [M' _].
  pose proof (periodic_resets_current now (add_loss (-2500) p)) as [A [B E]].
  set (q := periodic_resets now (add_loss (-2500) p)) in *.
  cbn [is_locked current_daily_loss max_daily_loss add_loss] in L', C', M'.
  rewrite L in L'. rewrite C in C'. rewrite M in M'.
  assert (K : check_discipline (add_loss (-2500) p) now
              = (lock_account "Daily Loss Limit ($200.00) hit." now q,
                 (false, "Daily Loss Limit Exceeded"))).
  { unfold check_discipline; cbv zeta. fold q.
    rewrite L', M', C'. reflexivity. }
  assert (K2 : r = (lock_account "Daily Loss Limit ($200.00) hit." now q,
                    Some (false, "Daily Loss Limit Exceeded"))).
  { unfold r, on_trade_closed. cbn [status_eqb is_loss pnl_truthy andb].
    replace (negb (-2500 =? 0)) with true by reflexivity.
    rewrite K. reflexivity. }
  rewrite K2. cbn [fst snd].
  unfold check_discipline at 1; cbv zeta. fresh_noop A B E.
  rewrite lock_account_locked, lock_account_not_expired.
  cbn. rewrite C'. repeat split; reflexivity.
Qed.

(** C2 witness: the scenario on a default profile. *)
Lemma C2_witness :
  let r := on_trade_closed OPEN CLOSED (Some LOSS) (Some (-2500))
             (add_loss 18000 (default_profile oct16_1100)) oct16_1100 in
  current_daily_loss (fst r) = 20500 /\
  is_locked (fst r) = true /\
  lock_reason (fst r) = Some "Daily Loss Limit ($200.00) hit." /\
  locked_at (fst r) = Some oct16_1100 /\
  snd r = Some (false, "Daily Loss Limit Exceeded") /\
  snd (check_discipline (fst r) oct16_1100)
    = (false, "Account Locked: Daily Loss Limit ($200.00) hit.").
Proof.
  apply (C2_loss_close_locks (add_loss 18000 (default_profile oct16_1100))
           oct16_1100); reflexivity.
Defined.

(** C4 counterexample: a WIN closed with [pnl = -25.00] has negative PnL,
    yet the profile, and so [current_daily_loss], is left unchanged. *)
Lemma C4_counterexample :
  let p := add_loss 18000 (default_profile oct16_1100) in
  on_trade_closed OPEN CLOSED (Some WIN) (Some (-2500)) p oct16_1100
    = (p, None) /\
  current_daily_loss
    (fst (on_trade_closed OPEN CLOSED (Some WIN) (Some (-2500)) p oct16_1100))
    = current_daily_loss p.
Proof. split; reflexivity. Qed.

(** C4 (amended). [on_trade_closed] changes the profile only for an
    OPEN -> CLOSED update whose result is LOSS and whose [pnl] is set and
    nonzero; every other update (any WIN or BREAKEVEN, whatever the sign of
    its PnL) leaves the profile unchanged and runs no check. For such a
    LOSS close with [pnl = x] it adds [|x|], whatever the sign of [x], to
    [current_daily_loss] and re-runs [check_discipline]; on an unlocked
    profile whose last daily reset is today, [current_daily_loss] ends at
    its old value plus [|x|]. *)
Theorem C4_loss_accumulation (os st : trade_status)
    (r : option trade_result) (pnl : option Z) (p : profile)
    (now : datetime) :
  (status_eqb os OPEN && status_eqb st CLOSED && is_loss r && pnl_truthy pnl
     = false ->
   on_trade_closed os st r pnl p now = (p, None)) /\
  (forall x, os = OPEN -> st = CLOSED -> r = Some LOSS -> pnl = Some x ->
   x <> 0 ->
   on_trade_closed os st r pnl p now
     = (fst (check_discipline (add_loss x p) now),
        Some (snd (check_discipline (add_loss x p) now))) /\
   (is_locked p = false -> last_reset_date p = date_of now ->
    current_daily_loss (fst (on_trade_closed os st r pnl p now))
      = current_daily_loss p + Z.abs x)).
Proof.
  split.
  - intros G. unfold on_trade_closed.
    destruct (status_eqb os OPEN && status_eqb st CLOSED) eqn:S; [ | reflexivity].
    cbn [andb] in G. rewrite G. reflexivity.
  - intros x -> -> -> -> Hx.
    assert (Eq : on_trade_closed OPEN CLOSED (Some LOSS) (Some x) p now
                 = (fst (check_discipline (add_loss x p) now),
                    Some (snd (check_discipline (add_loss x p) now)))).
    { unfold on_trade_closed. cbn [status_eqb is_loss pnl_truthy andb].
      replace (negb (x =? 0)) with true
        by (symmetry; apply negb_true_iff, Z.eqb_neq; exact Hx).
      destruct (check_discipline (add_loss x p) now); reflexivity. }
    split; [exact Eq | ].
    intros L D. rewrite Eq. cbn [fst].
    rewrite check_discipline_keeps_loss; [reflexivity | exact L | ].
    rewrite add_loss_stale. now apply daily_fresh.
Qed.

(** C4 witness: a LOSS close of -25.00 on a fresh profile, and a WIN close. *)
Lemma C4_witness :
  let p := add_loss 18000 (default_profile oct16_1100) in
  on_trade_closed OPEN CLOSED (Some WIN) (Some (-2500)) p oct16_1100
    = (p, None) /\
  current_daily_loss
    (fst (on_trade_closed OPEN CLOSED (Some LOSS) (Some (-2500)) p oct16_1100))
    = current_daily_loss p + Z.abs (-2500).
Proof.
  intros p. split.
  - apply (proj1 (C4_loss_accumulation OPEN CLOSED (Some WIN) (Some (-2500))
                    p oct16_1100)).
    reflexivity.
  - apply (proj2 (C4_loss_accumulation OPEN CLOSED (Some LOSS) (Some (-2500))
                    p oct16_1100) (-2500)); try reflexivity.
    discriminate.
Defined.

(** ** C5: administrative resets *)

(** C5. [full_reset] (and [reset_demo], which calls the same
    [reset_daily_stats]) clears the lock and zeroes [current_daily_loss]
    and [trades_today], but keeps [trades_this_month] and
    [trades_this_year], although the docstring of [full_reset] says it
    resets the Daily/Monthly/Yearly trade counts. *)
Theorem C5_full_reset_keeps_period_counters (p : profile) (now : datetime) :
  let p' := full_reset (Some p) now in
  is_locked p' = false /\ lock_reason p' = None /\ locked_at p' = None /\
  current_daily_loss p' = 0 /\ trades_today p' = 0 /\
  trades_this_month p' = trades_this_month p /\
  trades_this_year p' = trades_this_year p /\
  reset_demo p now = p'.
Proof. cbn. repeat split. Qed.

(** ** C6: lock fields agree *)

Lemma lock_consistent_reset_daily (now : datetime) (p : profile) :
  lock_consistent (reset_daily_stats now p).
Proof.
  unfold lock_consistent; cbn. split; [discriminate | ].
  intros [[s [H _]] _]. discriminate.
Qed.

Lemma lock_consistent_lock_account (r : string) (now : datetime)
    (p : profile) :
  r <> "" -> lock_consistent (lock_account r now p).
Proof.
  intros H. unfold lock_consistent; cbn. split; [ | reflexivity].
  intros _. split; [exists r; auto | discriminate].
Qed.

(** Consistency only depends on the three lock fields. *)
Lemma lock_consistent_same_lock (p q : profile) :
  is_locked q = is_locked p -> lock_reason q = lock_reason p ->
  locked_at q = locked_at p -> lock_consistent p -> lock_consistent q.
Proof. unfold lock_consistent. intros -> -> ->. auto. Qed.

Lemma lock_consistent_periodic_resets (now : datetime) (p : profile) :
  lock_consistent p -> lock_consistent (periodic_resets now p).
Proof.
  intros H. unfold periodic_resets; cbn zeta.
  assert (H1 : lock_consistent (if daily_stale (date_of now) p
                                then reset_daily_stats now p else p))
    by (destruct (daily_stale _ p);
        [apply lock_consistent_reset_daily | exact H]).
  set (p1 := if daily_stale (date_of now) p then _ else _) in *.
  assert (H2 : lock_consistent (if monthly_stale (date_of now) p1
                                then reset_monthly_stats now p1 else p1))
    by (destruct (monthly_stale _ p1);
        [apply (lock_consistent_same_lock p1); auto | exact H1]).
  set (p2 := if monthly_stale (date_of now) p1 then _ else _) in *.
  destruct (yearly_stale _ p2);
    [apply (lock_consistent_same_lock p2); auto | exact H2].
Qed.

Lemma lock_consistent_check_discipline (p : profile) (now : datetime) :
  lock_consistent p -> lock_consistent (fst (check_discipline p now)).
Proof.
  intros H. apply (lock_consistent_periodic_resets now) in H.
  unfold check_discipline; cbv zeta.
  set (q := periodic_resets now p) in *.
  repeat match goal with |- context [if ?b then _ else _] => destruct b end;
    cbn [fst];
    solve [ exact H | apply lock_consistent_reset_daily
          | apply lock_consistent_lock_account; discriminate ].
Qed.

Lemma open_n_reachable (n : nat) (p : profile) (now : datetime) :
  reachable p -> reachable (open_n n p now).
Proof. intros R. induction n; cbn; [exact R | now apply reach_opened]. Qed.

(** C6. On every reachable profile, [is_locked] holds iff [lock_reason] is
    a non-empty string and [locked_at] is set: true of a new profile and
    kept by [check_discipline], opening and closing trades, both resets
    and limit edits; [lock_account] establishes it for every non-empty
    reason, which all its callers pass. *)
Theorem C6_lock_fields_consistent :
  (forall p, reachable p -> lock_consistent p) /\
  (forall r now p, r <> "" -> lock_consistent (lock_account r now p)).
Proof.
  split; [ | intros; now apply lock_consistent_lock_account].
  intros p R. induction R.
  - unfold lock_consistent; cbn. split; [discriminate | ].
    intros [[s [H _]] _]. discriminate.
  - now apply lock_consistent_check_discipline.
  - unfold on_trade_opened. apply lock_consistent_check_discipline.
    apply (lock_consistent_same_lock p); auto.
  - unfold on_trade_closed.
    destruct (status_eqb os OPEN && status_eqb st CLOSED); [ | exact IHR].
    destruct (is_loss r && pnl_truthy pnl); [ | exact IHR].
    destruct (check_discipline _ now) as [p' d] eqn:E. cbn [fst].
    change p' with (fst (p', d)). rewrite <- E.
    apply lock_consistent_check_discipline.
    apply (lock_consistent_same_lock p); auto.
  - apply lock_consistent_reset_daily.
  - apply lock_consistent_reset_daily.
  - unfold update_limits.
    destruct (is_locked p); [exact IHR | ].
    destruct (patch_valid r); [ | exact IHR].
    apply (lock_consistent_same_lock p); auto.
Qed.

(** C6 witness: the profile after six trade openings, which is locked. *)
Lemma C6_witness :
  lock_consistent (open_n 6 (default_profile oct16_1100) oct16_1100) /\
  lock_consistent (lock_account "Max Daily Trades (5) hit." oct16_1100
                     (default_profile oct16_1100)).
Proof.
  split.
  - apply (proj1 C6_lock_fields_consistent).
    apply open_n_reachable, reach_init.
  - apply (proj2 C6_lock_fields_consistent). discriminate.
Defined.

(** ** C7: precedence of the daily loss test *)

(** C7. For an unlocked profile whose counters are live (last daily reset
    is today): when it reaches both its daily loss limit and its daily trade
    cap it is locked with the daily loss reason, the loss being tested
    first; and (month and year current too) each breach test compares with
    [>=]: a value equal to its limit already locks, with that limit's
    message, the first limit in the order loss, daily, monthly, yearly
    deciding, and only values strictly below all four limits allow
    trading.  So the opening that brings [trades_today] to
    [max_trades_per_day] locks the account ("the 5th trade locks you out
    for the 6th"). *)
Theorem C7_daily_loss_first (p : profile) (now : datetime) :
  is_locked p = false -> last_reset_date p = date_of now ->
  (max_daily_loss p <= current_daily_loss p ->
   max_trades_per_day p <= trades_today p ->
   check_discipline p now
     = (lock_account ("Daily Loss Limit ($" ++ str_money (max_daily_loss p)
                      ++ ") hit.") now (periodic_resets now p),
        (false, "Daily Loss Limit Exceeded")) /\
   is_locked (fst (check_discipline p now)) = true /\
   lock_reason (fst (check_discipline p now))
     = Some ("Daily Loss Limit ($" ++ str_money (max_daily_loss p) ++ ") hit.")) /\
  (monthly_stale (date_of now) p = false -> yearly_stale (date_of now) p = false ->
   (max_daily_loss p <= current_daily_loss p ->
    check_discipline p now
      = (lock_account ("Daily Loss Limit ($" ++ str_money (max_daily_loss p)
                       ++ ") hit.") now p,
         (false, "Daily Loss Limit Exceeded"))) /\
   (current_daily_loss p < max_daily_loss p ->
    max_trades_per_day p <= trades_today p ->
    check_discipline p now
      = (lock_account ("Max Daily Trades (" ++ str_int (max_trades_per_day p)
                       ++ ") hit.") now p,
         (false, "Max Daily Trades Limit Exceeded"))) /\
   (current_daily_loss p < max_daily_loss p ->
    trades_today p < max_trades_per_day p ->
    max_trades_monthly p <= trades_this_month p ->
    check_discipline p now
      = (lock_account ("Max Monthly Trades (" ++ str_int (max_trades_monthly p)
                       ++ ") hit.") now p,
         (false, "Max Monthly Trades Limit Exceeded"))) /\
   (current_daily_loss p < max_daily_loss p ->
    trades_today p < max_trades_per_day p ->
    trades_this_month p < max_trades_monthly p ->
    max_trades_yearly p <= trades_this_year p ->
    check_discipline p now
      = (lock_account ("Max Yearly Trades (" ++ str_int (max_trades_yearly p)
                       ++ ") hit.") now p,
         (false, "Max Yearly Trades Limit Exceeded"))) /\
   (current_daily_loss p < max_daily_loss p ->
    trades_today p < max_trades_per_day p ->
    trades_this_month p < max_trades_monthly p ->
    trades_this_year p < max_trades_yearly p ->
    check_discipline p now = (p, (true, "Trading Allowed")))) /\
  (current_daily_loss p < max_daily_loss p ->
   trades_today p + 1 = max_trades_per_day p ->
   is_locked (fst (on_trade_opened p now)) = true /\
   snd (on_trade_opened p now) = (false, "Max Daily Trades Limit Exceeded")).
Proof.
  intros L D. split; [ | split].
  - intros Hl Ht.
    pose proof (periodic_resets_same_day now p (daily_fresh now p D))
      as [L' [_ [_ [C' _]]]].
    pose proof (periodic_resets_limits now p) as [M' _].
    assert (E : check_discipline p now
                = (lock_account ("Daily Loss Limit ($"
                                 ++ str_money (max_daily_loss p) ++ ") hit.")
                     now (periodic_resets now p),
                   (false, "Daily Loss Limit Exceeded"))).
    { unfold check_discipline; cbv zeta.
      rewrite L', L, M', C'.
      replace (max_daily_loss p <=? current_daily_loss p) with true
        by (symmetry; apply Z.leb_le; exact Hl).
      reflexivity. }
    rewrite E. repeat split.
  - intros M Y.
    assert (E : check_discipline p now
                = if max_daily_loss p <=? current_daily_loss p then
                    (lock_account ("Daily Loss Limit ($" ++ str_money (max_daily_loss p)
                                   ++ ") hit.") now p,
                     (false, "Daily Loss Limit Exceeded"))
                  else if max_trades_per_day p <=? trades_today p then
                    (lock_account ("Max Daily Trades (" ++ str_int (max_trades_per_day p)
                                   ++ ") hit.") now p,
                     (false, "Max Daily Trades Limit Exceeded"))
                  else if max_trades_monthly p <=? trades_this_month p then
                    (lock_account ("Max Monthly Trades ("
                                   ++ str_int (max_trades_monthly p) ++ ") hit.") now p,
                     (false, "Max Monthly Trades Limit Exceeded"))
                  else if max_trades_yearly p <=? trades_this_year p then
                    (lock_account ("Max Yearly Trades ("
                                   ++ str_int (max_trades_yearly p) ++ ") hit.") now p,
                     (false, "Max Yearly Trades Limit Exceeded"))
                  else (p, (true, "Trading Allowed"))).
    { unfold check_discipline; cbv zeta.
      rewrite (periodic_resets_noop now p (daily_fresh now p D) M Y), L.
      reflexivity. }
    rewrite E.
    repeat split; intros;
      repeat match goal with
             | H : ?a <= ?b |- context [?a <=? ?b] =>
                 rewrite (proj2 (Z.leb_le a b) H)
             | H : ?b < ?a |- context [?a <=? ?b] =>
                 rewrite (proj2 (Z.leb_gt a b) H)
             end; reflexivity.
  - intros Hl Ht. unfold on_trade_opened.
    pose proof (periodic_resets_same_day now (count_trade p)
                  (daily_fresh now (count_trade p) D)) as [L' [_ [_ [C' [T' _]]]]].
    pose proof (periodic_resets_limits now (count_trade p)) as [M' [N' _]].
    unfold check_discipline; cbv zeta.
    set (q := periodic_resets now (count_trade p)) in *.
    cbn [is_locked current_daily_loss trades_today max_daily_loss
         max_trades_per_day count_trade] in L', C', T', M', N'.
    rewrite L', L, M', C', N', T'.
    rewrite (proj2 (Z.leb_gt _ _) Hl), (proj2 (Z.leb_le _ _) (Z.eq_le_incl _ _ (eq_sym Ht))).
    split; reflexivity.
Qed.

(** C7 witness: both limits met exactly (loss 200.00 of 200.00, 5 of 5
    trades), the boundary that [>=] includes; and a fifth trade opened on a
    profile with four trades today locks it. *)
Lemma C7_witness :
  let p := mkProfile 20000 5 100 1000 20000 5 5 5 false None None
             oct16 oct16 oct16 in
  let p4 := mkProfile 20000 5 100 1000 0 4 4 4 false None None
              oct16 oct16 oct16 in
  (snd (check_discipline p oct16_1100) = (false, "Daily Loss Limit Exceeded") /\
   is_locked (fst (check_discipline p oct16_1100)) = true /\
   lock_reason (fst (check_discipline p oct16_1100))
     = Some "Daily Loss Limit ($200.00) hit.") /\
  (is_locked (fst (on_trade_opened p4 oct16_1100)) = true /\
   snd (on_trade_opened p4 oct16_1100) = (false, "Max Daily Trades Limit Exceeded")).
Proof.
  intros p p4. split.
  - destruct (proj1 (C7_daily_loss_first p oct16_1100 eq_refl eq_refl)
                ltac:(cbn; lia) ltac:(cbn; lia)) as [E [L R]].
    rewrite E. split; [reflexivity | ]. rewrite <- E. split; assumption.
  - apply (proj2 (proj2 (C7_daily_loss_first p4 oct16_1100 eq_refl eq_refl)));
      cbn; lia.
Defined.

(** ** C8: limit edits *)




(** ** C9 and C10: the cooldown-expiry branch *)

(** C9. When the cooldown-expiry branch fires it returns
    [(true, "Trading Allowed (Lock Expired)")] without evaluating the
    breach tests: a profile still at its monthly cap comes out unlocked
    and allowed, and only the next call locks it again. *)
Theorem C9_expiry_skips_breach_tests (p : profile) (T now : datetime) :
  is_locked p = true -> locked_at p = Some T -> T + twelve_hours < now ->
  last_reset_date p = date_of now ->
  monthly_stale (date_of now) p = false ->
  max_trades_monthly p <= trades_this_month p ->
  snd (check_discipline p now) = (true, "Trading Allowed (Lock Expired)") /\
  is_locked (fst (check_discipline p now)) = false /\
  max_trades_monthly (fst (check_discipline p now))
    <= trades_this_month (fst (check_discipline p now)) /\
  fst (snd (check_discipline (fst (check_discipline p now)) now)) = false /\
  is_locked (fst (check_discipline (fst (check_discipline p now)) now))
    = true.
Proof.
  intros L A Hn D M Hm.
  destruct (proj2 (locked_same_day_check p T now L A D) Hn)
    as [Dec [L1 [_ [_ [_ [_ [Mo _]]]]]]].
  rewrite M in Mo.
  pose proof (periodic_resets_limits now p) as [_ [_ [Mm _]]].
  assert (Mm1 : max_trades_monthly (fst (check_discipline p now))
                = max_trades_monthly p).
  { unfold check_discipline; cbv zeta.
    pose proof (periodic_resets_same_day now p (daily_fresh now p D))
      as [L' [_ [A' _]]].
    rewrite L', L. unfold lock_expired. rewrite A', A.
    replace (T + twelve_hours <? now) with true
      by (symmetry; apply Z.ltb_lt; lia).
    exact Mm. }
  split; [exact Dec | split; [exact L1 | split; [lia | ]]].
  set (p1 := fst (check_discipline p now)) in *.
  pose proof (check_discipline_current p now) as [A1 [B1 C1]].
  fold p1 in A1, B1, C1.
  unfold check_discipline at 1 2; cbv zeta.
  rewrite (periodic_resets_noop now p1 A1 B1 C1), L1.
  replace (max_trades_monthly p1 <=? trades_this_month p1) with true
    by (symmetry; apply Z.leb_le; lia).
  repeat match goal with |- context [if ?b then _ else _] => destruct b end;
    split; reflexivity.
Qed.

(** C9 witness: locked at 11:00 with 100 of 100 monthly trades, checked at
    23:01 the same day and once more. *)
Lemma C9_witness :
  let p := mkProfile 20000 5 100 1000 0 0 100 100
             true (Some "Max Monthly Trades (100) hit.") (Some oct16_1100)
             oct16 oct16 oct16 in
  let now := oct16_1100 + twelve_hours + 60 in
  snd (check_discipline p now) = (true, "Trading Allowed (Lock Expired)") /\
  is_locked (fst (check_discipline p now)) = false /\
  max_trades_monthly (fst (check_discipline p now))
    <= trades_this_month (fst (check_discipline p now)) /\
  fst (snd (check_discipline (fst (check_discipline p now)) now)) = false /\
  is_locked (fst (check_discipline (fst (check_discipline p now)) now))
    = true.
Proof.
  intros p now.
  apply (C9_expiry_skips_breach_tests p oct16_1100 now);
    try reflexivity; unfold now, twelve_hours; cbn; lia.
Defined.

(** C10. A locked profile without [locked_at] never takes the
    cooldown-expiry branch, whatever [now] is: on the day of its last daily
    reset the call returns [(false, "Account Locked: " + lock_reason)] and
    the lock stays, and the lock is cleared only by a day rollover. *)
Theorem C10_no_expiry_without_locked_at (p : profile) (now : datetime) :
  is_locked p = true -> locked_at p = None ->
  snd (check_discipline p now) <> (true, "Trading Allowed (Lock Expired)") /\
  (last_reset_date p = date_of now ->
   check_discipline p now
     = (periodic_resets now p,
        (false, "Account Locked: " ++ str_opt (lock_reason p))) /\
   is_locked (fst (check_discipline p now)) = true) /\
  (is_locked (fst (check_discipline p now)) = false ->
   last_reset_date p <> date_of now).
Proof.
  intros L A.
  assert (Same : last_reset_date p = date_of now ->
                 check_discipline p now
                   = (periodic_resets now p,
                      (false, "Account Locked: " ++ str_opt (lock_reason p))) /\
                 is_locked (fst (check_discipline p now)) = true).
  { intros D.
    pose proof (periodic_resets_same_day now p (daily_fresh now p D))
      as [L' [R' [A' _]]].
    assert (E : check_discipline p now
                = (periodic_resets now p,
                   (false, "Account Locked: " ++ str_opt (lock_reason p)))).
    { unfold check_discipline; cbv zeta.
      rewrite L', L. unfold lock_expired. rewrite A', A, R'. reflexivity. }
    rewrite E. cbn [fst]. split; [reflexivity | congruence]. }
  split; [ | split; [exact Same | ]].
  - destruct (daily_stale (date_of now) p) eqn:D.
    + (* the day rolled over: the lock is gone before the lock test *)
      unfold check_discipline; cbv zeta.
      assert (U : is_locked (periodic_resets now p) = false).
      { unfold periodic_resets; cbv zeta. rewrite D.
        destruct (monthly_stale _ (reset_daily_stats now p));
          destruct (yearly_stale _ _); reflexivity. }
      rewrite U.
      repeat match goal with |- context [if ?b then _ else _] => destruct b end;
        cbn [snd]; intros H; inversion H.
    + unfold daily_stale in D. apply negb_false_iff in D.
      assert (D' : last_reset_date p = date_of now).
      { destruct (last_reset_date p) as [y m d], (date_of now) as [y' m' d'].
        unfold date_eqb in D; cbn in D.
        apply andb_true_iff in D as [D D3]. apply andb_true_iff in D as [D1 D2].
        apply Z.eqb_eq in D1, D2, D3. now subst. }
      destruct (Same D') as [E _]. rewrite E. cbn [snd]. intros H; inversion H.
  - intros U D. destruct (Same D) as [_ L2]. congruence.
Qed.

(** C10 witness: a lock without timestamp, checked an hour later on the
    day of its last reset. *)
Lemma C10_witness :
  let p := mkProfile 20000 5 100 1000 0 0 0 0
             true (Some "Manual") None oct16 oct16 oct16 in
  snd (check_discipline p (oct16_1100 + 3600))
    <> (true, "Trading Allowed (Lock Expired)") /\
  check_discipline p (oct16_1100 + 3600)
    = (periodic_resets (oct16_1100 + 3600) p,
       (false, "Account Locked: Manual")).
Proof.
  intros p.
  destruct (C10_no_expiry_without_locked_at p (oct16_1100 + 3600)
              eq_refl eq_refl) as [N [S _]].
  split; [exact N | ].
  apply S. vm_compute. reflexivity.
Defined.

(** * Further properties of the code *)

(** ** Decisions and state *)

(** X1. The [allowed] flag returned by [check_discipline] always agrees
    with the lock state it leaves: allowed iff the profile is unlocked. *)
Theorem X1_allowed_iff_unlocked (p : profile) (now : datetime) :
  fst (snd (check_discipline p now))
    = negb (is_locked (fst (check_discipline p now))).
Proof.
  unfold check_discipline; cbv zeta.
  set (q := periodic_resets now p).
  destruct (is_locked q) eqn:L;
    [ destruct (lock_expired now q) | ];
    repeat match goal with |- context [if ?b then _ else _] => destruct b end;
    cbn [fst snd is_locked reset_daily_stats lock_account];
    rewrite ?L; reflexivity.
Qed.

Lemma limits_reset_daily (now : datetime) (p : profile) :
  max_daily_loss (reset_daily_stats now p) = max_daily_loss p /\
  max_trades_per_day (reset_daily_stats now p) = max_trades_per_day p /\
  max_trades_monthly (reset_daily_stats now p) = max_trades_monthly p /\
  max_trades_yearly (reset_daily_stats now p) = max_trades_yearly p.
Proof. repeat split. Qed.

Lemma limits_check_discipline (p : profile) (now : datetime) :
  max_daily_loss (fst (check_discipline p now)) = max_daily_loss p /\
  max_trades_per_day (fst (check_discipline p now)) = max_trades_per_day p /\
  max_trades_monthly (fst (check_discipline p now)) = max_trades_monthly p /\
  max_trades_yearly (fst (check_discipline p now)) = max_trades_yearly p.
Proof.
  pose proof (periodic_resets_limits now p) as H.
  unfold check_discipline; cbv zeta.
  set (q := periodic_resets now p) in *.
  repeat match goal with |- context [if ?b then _ else _] => destruct b end;
    exact H.
Qed.

(** X2. Only a limit edit changes the limits: [check_discipline], opening
    and closing a trade and both administrative resets keep
    [max_daily_loss] and the three trade caps. *)
Theorem X2_limits_only_user_edited (p : profile) (now : datetime)
    (os st : trade_status) (r : option trade_result) (pnl : option Z) :
  let same q := max_daily_loss q = max_daily_loss p /\
                max_trades_per_day q = max_trades_per_day p /\
                max_trades_monthly q = max_trades_monthly p /\
                max_trades_yearly q = max_trades_yearly p in
  same (fst (check_discipline p now)) /\
  same (fst (on_trade_opened p now)) /\
  same (fst (on_trade_closed os st r pnl p now)) /\
  same (full_reset (Some p) now) /\
  same (reset_demo p now).
Proof.
  intros same. unfold same.
  split; [apply limits_check_discipline | ].
  split; [apply (limits_check_discipline (count_trade p)) | ].
  split.
  - unfold on_trade_closed.
    destruct (status_eqb os OPEN && status_eqb st CLOSED);
      [ | repeat split].
    destruct (is_loss r && pnl_truthy pnl); [ | repeat split].
    pose proof (limits_check_discipline
                  (add_loss (match pnl with Some x => x | None => 0 end) p) now)
      as H.
    destruct (check_discipline _ now) as [p' d]. exact H.
  - split; apply limits_reset_daily.
Qed.

Lemma counters_periodic_resets (now : datetime) (p : profile) :
  kept_or_zero (current_daily_loss p) (current_daily_loss (periodic_resets now p)) /\
  kept_or_zero (trades_today p) (trades_today (periodic_resets now p)) /\
  kept_or_zero (trades_this_month p) (trades_this_month (periodic_resets now p)) /\
  kept_or_zero (trades_this_year p) (trades_this_year (periodic_resets now p)).
Proof.
  unfold kept_or_zero, periodic_resets; cbv zeta.
  destruct (daily_stale _ p); destruct (monthly_stale _ _);
    destruct (yearly_stale _ _); cbn; tauto.
Qed.

Lemma counters_check_discipline (p : profile) (now : datetime) :
  kept_or_zero (current_daily_loss p)
    (current_daily_loss (fst (check_discipline p now))) /\
  kept_or_zero (trades_today p) (trades_today (fst (check_discipline p now))) /\
  kept_or_zero (trades_this_month p)
    (trades_this_month (fst (check_discipline p now))) /\
  kept_or_zero (trades_this_year p)
    (trades_this_year (fst (check_discipline p now))).
Proof.
  pose proof (counters_periodic_resets now p) as H.
  unfold kept_or_zero in *.
  unfold check_discipline; cbv zeta.
  set (q := periodic_resets now p) in *.
  repeat match goal with |- context [if ?b then _ else _] => destruct b end;
    cbn [fst reset_daily_stats lock_account current_daily_loss trades_today
         trades_this_month trades_this_year];
    tauto.
Qed.

(** X4. [check_discipline] never raises a counter and never sets it to
    anything but its old value or zero: [current_daily_loss],
    [trades_today], [trades_this_month] and [trades_this_year] are each
    kept or zeroed (by a period rollover or the cooldown expiry). *)
Theorem X4_check_keeps_or_zeroes_counters (p : profile) (now : datetime) :
  kept_or_zero (current_daily_loss p)
    (current_daily_loss (fst (check_discipline p now))) /\
  kept_or_zero (trades_today p) (trades_today (fst (check_discipline p now))) /\
  kept_or_zero (trades_this_month p)
    (trades_this_month (fst (check_discipline p now))) /\
  kept_or_zero (trades_this_year p)
    (trades_this_year (fst (check_discipline p now))).
Proof. apply counters_check_discipline. Qed.

Lemma counters_nonneg_check (p : profile) (now : datetime) :
  counters_nonneg p -> counters_nonneg (fst (check_discipline p now)).
Proof.
  pose proof (counters_check_discipline p now) as H.
  unfold counters_nonneg, kept_or_zero in *. lia.
Qed.

(** X3. On every reachable profile the live counters are non-negative:
    losses are added as [abs(pnl)], trades counted by [+= 1], and the
    resets only write zeros. *)
Theorem X3_counters_nonneg (p : profile) : reachable p -> counters_nonneg p.
Proof.
  intros R. induction R.
  - unfold counters_nonneg; cbn; lia.
  - now apply counters_nonneg_check.
  - apply counters_nonneg_check. unfold counters_nonneg in *; cbn; lia.
  - unfold on_trade_closed.
    destruct (status_eqb os OPEN && status_eqb st CLOSED); [ | exact IHR].
    destruct (is_loss r && pnl_truthy pnl); [ | exact IHR].
    set (x := match pnl with Some x => x | None => 0 end).
    pose proof (counters_nonneg_check (add_loss x p) now) as H.
    destruct (check_discipline _ now) as [p' d]. cbn [fst] in *.
    apply H. unfold counters_nonneg in *; cbn; lia.
  - unfold counters_nonneg in *; cbn; lia.
  - unfold counters_nonneg in *; cbn; lia.
  - unfold update_limits.
    destruct (is_locked p); [exact IHR | ].
    destruct (patch_valid r); [ | exact IHR].
    unfold counters_nonneg in *; cbn; exact IHR.
Qed.

(** X3 witness: the profile after six trade openings. *)
Lemma X3_witness :
  counters_nonneg (open_n 6 (default_profile oct16_1100) oct16_1100).
Proof.
  apply X3_counters_nonneg. apply open_n_reachable, reach_init.
Defined.

(** ** Opening trades *)

(** X5. Opening a trade is never blocked: on a profile locked earlier the
    same day and still in its cooldown, [perform_create] still counts the
    trade in [trades_today], keeps the lock and the evaluation returns
    [(false, "Account Locked: " + lock_reason)]. *)
Theorem X5_open_while_locked_counts (p : profile) (now : datetime) :
  is_locked p = true -> lock_expired now p = false ->
  last_reset_date p = date_of now ->
  trades_today (fst (on_trade_opened p now)) = trades_today p + 1 /\
  is_locked (fst (on_trade_opened p now)) = true /\
  lock_reason (fst (on_trade_opened p now)) = lock_reason p /\
  snd (on_trade_opened p now)
    = (false, "Account Locked: " ++ str_opt (lock_reason p)).
Proof.
  intros L X D.
  assert (D' : daily_stale (date_of now) (count_trade p) = false)
    by (apply daily_fresh; exact D).
  pose proof (periodic_resets_same_day now _ D') as [L' [R' [A' [_ [T' _]]]]].
  unfold on_trade_opened, check_discipline; cbv zeta.
  set (q := periodic_resets now (count_trade p)) in *.
  cbn [is_locked lock_reason locked_at trades_today count_trade] in L', R', A', T'.
  assert (X' : lock_expired now q = false)
    by (unfold lock_expired in *; rewrite A'; exact X).
  rewrite L', L, X'. cbn [fst snd]. rewrite T', R', L'. auto.
Qed.

(** X5 witness: a sixth trade opened an hour after the fifth locked the
    account. *)
Lemma X5_witness :
  let p := open_n 5 (default_profile oct16_1100) oct16_1100 in
  trades_today (fst (on_trade_opened p (oct16_1100 + 3600)))
    = trades_today p + 1 /\
  is_locked (fst (on_trade_opened p (oct16_1100 + 3600))) = true /\
  lock_reason (fst (on_trade_opened p (oct16_1100 + 3600))) = lock_reason p /\
  snd (on_trade_opened p (oct16_1100 + 3600))
    = (false, "Account Locked: " ++ str_opt (lock_reason p)).
Proof.
  intros p. apply X5_open_while_locked_counts; vm_compute; reflexivity.
Defined.

(** X6. [perform_create] increments the counters before
    [check_discipline] runs the day rollover: when the trade is the first
    call on a new day, the rollover zeroes [trades_today] again and the
    trade is not counted for that day. *)
Theorem X6_first_trade_of_day_uncounted (p : profile) (now : datetime) :
  last_reset_date p <> date_of now ->
  trades_today (fst (on_trade_opened p now)) = 0.
Proof.
  intros D.
  assert (S : daily_stale (date_of now) (count_trade p) = true).
  { unfold daily_stale; cbn. apply negb_true_iff.
    destruct (date_eqb (last_reset_date p) (date_of now)) eqn:E; [ | reflexivity].
    exfalso. apply D.
    destruct (last_reset_date p) as [y m d], (date_of now) as [y' m' d'].
    unfold date_eqb in E; cbn in E.
    apply andb_true_iff in E as [E E3]. apply andb_true_iff in E as [E1 E2].
    apply Z.eqb_eq in E1, E2, E3. now subst. }
  assert (Q : trades_today (periodic_resets now (count_trade p)) = 0 /\
              is_locked (periodic_resets now (count_trade p)) = false).
  { unfold periodic_resets; cbv zeta. rewrite S.
    destruct (monthly_stale _ _); destruct (yearly_stale _ _); cbn; auto. }
  destruct Q as [T0 L0].
  unfold on_trade_opened, check_discipline; cbv zeta.
  set (q := periodic_resets now (count_trade p)) in *.
  rewrite L0.
  repeat match goal with |- context [if ?b then _ else _] => destruct b end;
    cbn [fst lock_account trades_today]; exact T0.
Qed.

(** X6 witness: five trades yesterday, one opened today. *)
Lemma X6_witness :
  trades_today (fst (on_trade_opened
                       (open_n 5 (default_profile (oct16_1100 - 86400))
                          (oct16_1100 - 86400)) oct16_1100)) = 0.
Proof.
  apply X6_first_trade_of_day_uncounted. vm_compute. discriminate.
Defined.

(** X7. The opening that brings [trades_today] up to [max_trades_per_day]
    locks the account at once, for a profile unlocked and under its loss
    limit earlier the same day: the lock reason is
    "Max Daily Trades (<cap>) hit." and the evaluation returns
    [(false, "Max Daily Trades Limit Exceeded")]. *)
Theorem X7_open_reaching_cap_locks (p : profile) (now : datetime) :
  is_locked p = false -> last_reset_date p = date_of now ->
  current_daily_loss p < max_daily_loss p ->
  trades_today p + 1 = max_trades_per_day p ->
  is_locked (fst (on_trade_opened p now)) = true /\
  lock_reason (fst (on_trade_opened p now))
    = Some ("Max Daily Trades (" ++ str_int (max_trades_per_day p) ++ ") hit.") /\
  snd (on_trade_opened p now) = (false, "Max Daily Trades Limit Exceeded").
Proof.
  intros L D Hl Ht.
  assert (D' : daily_stale (date_of now) (count_trade p) = false)
    by (apply daily_fresh; exact D).
  pose proof (periodic_resets_same_day now _ D') as [L' [_ [_ [C' [T' _]]]]].
  pose proof (periodic_resets_limits now (count_trade p)) as [M1 [M2 _]].
  unfold on_trade_opened, check_discipline; cbv zeta.
  set (q := periodic_resets now (count_trade p)) in *.
  cbn [is_locked current_daily_loss trades_today max_daily_loss
       max_trades_per_day count_trade] in L', C', T', M1, M2.
  rewrite L', L, M1, C', M2, T'.
  replace (max_daily_loss p <=? current_daily_loss p) with false
    by (symmetry; apply Z.leb_gt; lia).
  replace (max_trades_per_day p <=? trades_today p + 1) with true
    by (symmetry; apply Z.leb_le; lia).
  cbn. auto.
Qed.

(** X7 witness: the fifth trade of a fresh profile. *)
Lemma X7_witness :
  let p := open_n 4 (default_profile oct16_1100) oct16_1100 in
  is_locked (fst (on_trade_opened p oct16_1100)) = true /\
  lock_reason (fst (on_trade_opened p oct16_1100))
    = Some ("Max Daily Trades (" ++ str_int (max_trades_per_day p) ++ ") hit.") /\
  snd (on_trade_opened p oct16_1100) = (false, "Max Daily Trades Limit Exceeded").
Proof.
  intros p. apply X7_open_reaching_cap_locks; vm_compute; reflexivity.
Defined.

(** ** Reading and editing through [current] *)

(** X8. A GET on [current] can contradict itself: for a lock whose
    cooldown has run out (same day), the response still shows
    [is_locked = true] and the old reason, read before [get_status], while
    its [status] is [(true, "Trading Allowed (Lock Expired)")] and the
    stored profile is unlocked by that very read. *)
Theorem X8_get_reads_fields_before_status (p : profile) (T now : datetime) :
  is_locked p = true -> locked_at p = Some T -> T + twelve_hours < now ->
  last_reset_date p = date_of now ->
  r_is_locked (snd (current_get (Some p) now)) = true /\
  r_lock_reason (snd (current_get (Some p) now)) = lock_reason p /\
  r_status (snd (current_get (Some p) now))
    = (true, "Trading Allowed (Lock Expired)") /\
  is_locked (fst (current_get (Some p) now)) = false.
Proof.
  intros L A Hn D.
  destruct (proj2 (locked_same_day_check p T now L A D) Hn) as [Dec [L1 _]].
  unfold current_get, get_object, serialize.
  destruct (check_discipline p now) as [p' d] eqn:E. cbn [fst snd] in *.
  auto.
Qed.

(** X8 witness: locked at 11:00, read at 23:01. *)
Lemma X8_witness :
  let p := mkProfile 20000 5 100 1000 20000 2 3 3
             true (Some "Daily Loss Limit ($200.00) hit.") (Some oct16_1100)
             oct16 oct16 oct16 in
  let now := oct16_1100 + twelve_hours + 60 in
  r_is_locked (snd (current_get (Some p) now)) = true /\
  r_lock_reason (snd (current_get (Some p) now)) = lock_reason p /\
  r_status (snd (current_get (Some p) now))
    = (true, "Trading Allowed (Lock Expired)") /\
  is_locked (fst (current_get (Some p) now)) = false.
Proof.
  intros p now.
  apply (X8_get_reads_fields_before_status p oct16_1100 now);
    solve [ reflexivity | unfold now, twelve_hours; lia
          | vm_compute; reflexivity ].
Defined.

(** X9. A PATCH on an unlocked profile that lowers [max_daily_loss] to or
    below today's loss is accepted and locks the account in the same
    request: the response shows the new limit and [is_locked = false], but
    its status is [(false, "Daily Loss Limit Exceeded")], and the stored
    profile is locked. *)
Theorem X9_patch_below_loss_locks (p : profile) (now : datetime) (m : Z) :
  is_locked p = false -> last_reset_date p = date_of now ->
  Z.abs m < 10 ^ 10 -> m <= current_daily_loss p ->
  exists rep,
    current_patch (Some p) (mkPatch (Some m) None None None) now
      = (fst (current_patch (Some p) (mkPatch (Some m) None None None) now),
         PatchOk rep) /\
    r_max_daily_loss rep = m /\ r_is_locked rep = false /\
    r_status rep = (false, "Daily Loss Limit Exceeded") /\
    is_locked (fst (current_patch (Some p) (mkPatch (Some m) None None None)
                      now)) = true.
Proof.
  intros L D V Hm.
  set (p1 := serializer_save (mkPatch (Some m) None None None) p).
  assert (U : update_limits p (mkPatch (Some m) None None None) = (p1, Updated)).
  { assert (V' : (Z.abs m <? 10 ^ 10) = true) by (apply Z.ltb_lt; lia).
    unfold update_limits. rewrite L. unfold patch_valid.
    cbn [req_max_daily_loss]. rewrite V'. reflexivity. }
  assert (K : check_discipline p1 now
              = (lock_account ("Daily Loss Limit ($" ++ str_money m ++ ") hit.")
                   now (periodic_resets now p1),
                 (false, "Daily Loss Limit Exceeded"))).
  { assert (D1 : daily_stale (date_of now) p1 = false)
      by (apply daily_fresh; exact D).
    pose proof (periodic_resets_same_day now p1 D1) as [L' [_ [_ [C' _]]]].
    pose proof (periodic_resets_limits now p1) as [M' _].
    unfold check_discipline; cbv zeta.
    rewrite L', M', C'. cbn [p1 serializer_save is_locked max_daily_loss
                             current_daily_loss opt_default req_max_daily_loss].
    rewrite L.
    replace (m <=? current_daily_loss p) with true
      by (symmetry; apply Z.leb_le; exact Hm).
    reflexivity. }
  unfold current_patch, get_object. rewrite U. unfold serialize. rewrite K.
  cbn [fst snd]. eexists. split; [reflexivity | ].
  cbn. auto.
Qed.

(** X9 witness: a loss of 180.00 and the limit lowered to 150.00. *)
Lemma X9_witness :
  exists rep,
    current_patch (Some (add_loss 18000 (default_profile oct16_1100)))
      (mkPatch (Some 15000) None None None) oct16_1100
      = (fst (current_patch (Some (add_loss 18000 (default_profile oct16_1100)))
                (mkPatch (Some 15000) None None None) oct16_1100),
         PatchOk rep) /\
    r_max_daily_loss rep = 15000 /\ r_is_locked rep = false /\
    r_status rep = (false, "Daily Loss Limit Exceeded") /\
    is_locked (fst (current_patch
                      (Some (add_loss 18000 (default_profile oct16_1100)))
                      (mkPatch (Some 15000) None None None) oct16_1100)) = true.
Proof.
  apply X9_patch_below_loss_locks;
    first [ reflexivity | vm_compute; reflexivity | vm_compute; discriminate ].
Defined.

(** X10. The PATCH guard reads the stored [is_locked] flag without running
    [check_discipline]: with a lock whose cooldown has run out (same day),
    a valid limit edit is rejected, yet a GET at the same instant, which
    runs [check_discipline] through [get_status], unlocks the profile and
    the same edit is then accepted. *)
Theorem X10_get_then_patch (p : profile) (T now : datetime)
    (r : limits_patch) :
  is_locked p = true -> locked_at p = Some T -> T + twelve_hours < now ->
  last_reset_date p = date_of now -> patch_valid r = true ->
  snd (current_patch (Some p) r now) = PatchRejected locked_message /\
  exists rep,
    snd (current_patch (Some (fst (current_get (Some p) now))) r now)
      = PatchOk rep.
Proof.
  intros L A Hn D V.
  destruct (proj2 (locked_same_day_check p T now L A D) Hn) as [_ [L1 _]].
  split.
  - unfold current_patch; cbn [get_object]; unfold update_limits.
    rewrite L. reflexivity.
  - unfold current_patch; cbn [get_object]; unfold update_limits.
    assert (G : is_locked (fst (current_get (Some p) now)) = false).
    { unfold current_get, get_object, serialize.
      destruct (check_discipline p now) as [p' d]. exact L1. }
    rewrite G, V.
    destruct (serialize _ now) as [p2 rep]. eexists. reflexivity.
Qed.

(** X10 witness: locked at 11:00, edited at 23:01 before and after a GET. *)
Lemma X10_witness :
  let p := mkProfile 20000 5 100 1000 20000 2 3 3
             true (Some "Daily Loss Limit ($200.00) hit.") (Some oct16_1100)
             oct16 oct16 oct16 in
  let now := oct16_1100 + twelve_hours + 60 in
  let r := mkPatch (Some 30000) None None None in
  snd (current_patch (Some p) r now) = PatchRejected locked_message /\
  exists rep,
    snd (current_patch (Some (fst (current_get (Some p) now))) r now)
      = PatchOk rep.
Proof.
  intros p now r.
  apply (X10_get_then_patch p oct16_1100 now r);
    solve [ reflexivity | unfold now, twelve_hours; lia
          | vm_compute; reflexivity ].
Defined.

(** X11. A user without a profile gets one on the first GET: unlocked,
    with limits 200.00, 5, 100 and 1000 trades, and the status
    [(true, "Trading Allowed")], at any instant. *)
Theorem X11_auto_provision (now : datetime) :
  let '(p, rep) := current_get None now in
  is_locked p = false /\ lock_reason p = None /\
  max_daily_loss p = 20000 /\ max_trades_per_day p = 5 /\
  max_trades_monthly p = 100 /\ max_trades_yearly p = 1000 /\
  current_daily_loss p = 0 /\ trades_today p = 0 /\
  r_status rep = (true, "Trading Allowed").
Proof.
  pose proof (periodic_resets_current now (default_profile now)) as [A [B C]].
  assert (N : daily_stale (date_of now) (default_profile now) = false /\
              monthly_stale (date_of now) (default_profile now) = false /\
              yearly_stale (date_of now) (default_profile now) = false).
  { unfold_stale;
    cbn [default_profile last_reset_date last_monthly_reset last_yearly_reset].
    rewrite date_eqb_refl, !Z.eqb_refl. auto. }
  destruct N as [N1 [N2 N3]].
  assert (K : check_discipline (default_profile now) now
              = (default_profile now, (true, "Trading Allowed"))).
  { unfold check_discipline; cbv zeta.
    rewrite (periodic_resets_noop now _ N1 N2 N3). reflexivity. }
  unfold current_get, get_object, serialize. rewrite K.
  repeat split.
Qed.

(** ** The trade store *)

Lemma filter_none {A : Type} (f : A -> bool) (l : list A) :
  (forall x, In x l -> f x = false) -> filter f l = nil.
Proof.
  induction l as [|x l IH]; cbn; intros H; [reflexivity | ].
  rewrite (H x (or_introl eq_refl)). apply IH. intros y Hy. apply H. now right.
Qed.

Lemma filter_idem {A : Type} (f : A -> bool) (l : list A) :
  filter f (filter f l) = filter f l.
Proof.
  induction l as [|x l IH]; cbn; [reflexivity | ].
  destruct (f x) eqn:E; cbn; [rewrite E, IH | ]; easy.
Qed.

Lemma demo_trade_user (u sid : Z) (now : datetime) (d : nat * Z * bool) :
  t_user (demo_trade u sid now d) = u.
Proof. destruct d as [[k n] f]. reflexivity. Qed.

(** X12. [populate_demo] leaves the user exactly 20 trades, all CLOSED,
    all stamped with the current instant (the [created_at] it passes is
    overridden by [auto_now_add]), a WIN with a PnL in [50.00, 200.00], a
    LOSS in [-150.00, -50.00] and a BREAKEVEN at 0; other users' trades are
    untouched. *)
Theorem X12_populate_demo (u sid : Z) (now : datetime)
    (draws : nat -> nat * Z * bool) (ts : list trade) :
  (forall i, (i < 20)%nat -> draw_ok (draws i)) ->
  length (filter (fun t => t_user t =? u)
                 (populate_demo_store u sid now draws ts)) = 20%nat /\
  filter (fun t => negb (t_user t =? u)) (populate_demo_store u sid now draws ts)
    = filter (fun t => negb (t_user t =? u)) ts /\
  (forall t, In t (populate_demo_store u sid now draws ts) ->
   t_user t = u -> demo_shape now t).
Proof.
  intros Hd. unfold populate_demo_store, delete_user_trades.
  set (M := map (fun i => demo_trade u sid now (draws i)) (seq 0 20)).
  assert (MU : forall t, In t M -> t_user t = u).
  { intros t Ht. apply in_map_iff in Ht as [i [<- _]]. apply demo_trade_user. }
  split; [ | split].
  - rewrite filter_app, filter_none.
    + cbn [app]. rewrite forallb_filter_id.
      * unfold M. now rewrite length_map, length_seq.
      * apply forallb_forall. intros t Ht. rewrite (MU t Ht). apply Z.eqb_refl.
    + intros t Ht. apply filter_In in Ht as [_ Ht].
      now apply negb_true_iff in Ht.
  - rewrite filter_app, filter_idem, (filter_none _ M), app_nil_r; [reflexivity | ].
    intros t Ht. rewrite (MU t Ht), Z.eqb_refl. reflexivity.
  - intros t Ht Hu. apply in_app_or in Ht as [Ht | Ht].
    + apply filter_In in Ht as [_ Ht]. rewrite Hu, Z.eqb_refl in Ht.
      discriminate.
    + apply in_map_iff in Ht as [i [<- Hi]]. apply in_seq in Hi.
      specialize (Hd i ltac:(lia)).
      destruct (draws i) as [[k n] f]. destruct Hd as [Hk [HW HL]].
      unfold demo_trade, demo_shape; cbn [t_status t_created_at t_result t_pnl].
      split; [reflexivity | split; [reflexivity | ]].
      destruct (demo_result k) eqn:R; cbn [demo_pnl].
      * specialize (HW eq_refl). lia.
      * specialize (HL eq_refl). lia.
      * reflexivity.
Qed.

(** X12 witness: draws cycling through the four choices, with the lowest
    PnL each range allows; user 1 had one trade, user 2 keeps theirs. *)
Lemma X12_witness :
  let draws := fun i : nat =>
    (Nat.modulo i 4,
     if Nat.eqb (Nat.modulo i 4) 1 then -150 else 50,
     true) in
  let ts := mkTrade 1 None OPEN None None true 0
            :: mkTrade 2 None CLOSED (Some WIN) (Some 100) false 0 :: nil in
  length (filter (fun t => t_user t =? 1)
                 (populate_demo_store 1 7 oct16_1100 draws ts)) = 20%nat /\
  filter (fun t => negb (t_user t =? 1)) (populate_demo_store 1 7 oct16_1100 draws ts)
    = filter (fun t => negb (t_user t =? 1)) ts /\
  (forall t, In t (populate_demo_store 1 7 oct16_1100 draws ts) ->
   t_user t = 1 -> demo_shape oct16_1100 t).
Proof.
  intros draws ts. apply X12_populate_demo.
  intros i Hi.
  do 20 (destruct i as [|i];
    [ unfold draws, draw_ok; cbn; repeat split; intros; first [lia | discriminate] | ]).
  lia.
Defined.

(** X13. [full_reset] on the store: a kept trade belongs to another user
    and is not linked to a strategy of the resetting user; every other
    user's trade not linked to one of those strategies is kept; the
    strategies kept are exactly those of other users.  Deleting the
    strategies cascades ([on_delete=CASCADE]) to any trade pointing at them,
    whoever owns it. *)
Theorem X13_full_reset_store (u : Z) (ts : list trade) (ss : list strategy) :
  (forall t, In t (fst (full_reset_store u ts ss)) ->
   In t ts /\ t_user t <> u /\
   forall sid, t_strategy t = Some sid ->
   forall s, In s ss -> s_id s = sid -> s_user s <> u) /\
  (forall t, In t ts -> t_user t <> u ->
   (forall sid, t_strategy t = Some sid ->
    forall s, In s ss -> s_id s = sid -> s_user s <> u) ->
   In t (fst (full_reset_store u ts ss))) /\
  (forall s, In s (snd (full_reset_store u ts ss)) <-> In s ss /\ s_user s <> u).
Proof.
  unfold full_reset_store, delete_user_trades; cbn [fst snd].
  set (gone := map s_id (filter (fun s => s_user s =? u) ss)).
  assert (G : forall sid, In sid gone <->
              exists s, In s ss /\ s_id s = sid /\ s_user s = u).
  { intros sid; unfold gone; rewrite in_map_iff. split.
    - intros [s [<- Hs]]. apply filter_In in Hs as [Hs E].
      apply Z.eqb_eq in E. eauto.
    - intros [s [Hs [<- E]]]. exists s; split; [reflexivity | ].
      apply filter_In; split; [assumption | now apply Z.eqb_eq]. }
  split; [ | split].
  - intros t Ht. apply filter_In in Ht as [Ht K].
    apply filter_In in Ht as [Ht U]. apply negb_true_iff, Z.eqb_neq in U.
    split; [assumption | split; [assumption | ]].
    intros sid Hsid s Hs Hid Hu. rewrite Hsid in K.
    apply negb_true_iff in K.
    assert (In sid gone) as Hg by (apply G; eauto).
    assert (existsb (Z.eqb sid) gone = true) as E.
    { apply existsb_exists. exists sid. split; [assumption | apply Z.eqb_refl]. }
    congruence.
  - intros t Ht U N. apply filter_In. split.
    + apply filter_In. split; [assumption | now apply negb_true_iff, Z.eqb_neq].
    + destruct (t_strategy t) as [sid | ] eqn:Hsid; [ | reflexivity].
      apply negb_true_iff.
      destruct (existsb (Z.eqb sid) gone) eqn:E; [ | reflexivity].
      apply existsb_exists in E as [x [Hx Ex]]. apply Z.eqb_eq in Ex; subst x.
      apply G in Hx as [s [Hs [Hid Hu]]].
      exfalso. exact (N sid eq_refl s Hs Hid Hu).
  - intros s. rewrite filter_In, negb_true_iff, Z.eqb_neq. reflexivity.
Qed.

(** X13 witness: user 1 owns strategy 7; user 2's trade on strategy 7 is
    removed with it, user 2's trade on their own strategy 8 is kept. *)
Lemma X13_witness :
  let ts := mkTrade 1 (Some 7) CLOSED (Some WIN) (Some 100) true 0
            :: mkTrade 2 (Some 7) CLOSED (Some LOSS) (Some (-100)) true 0
            :: mkTrade 2 (Some 8) OPEN None None true 0 :: nil in
  let ss := mkStrategy 7 1 :: mkStrategy 8 2 :: nil in
  full_reset_store 1 ts ss
    = (mkTrade 2 (Some 8) OPEN None None true 0 :: nil, mkStrategy 8 2 :: nil) /\
  (forall t, In t (fst (full_reset_store 1 ts ss)) ->
   In t ts /\ t_user t <> 1 /\
   forall sid, t_strategy t = Some sid ->
   forall s, In s ss -> s_id s = sid -> s_user s <> 1).
Proof.
  intros ts ss. split; [reflexivity | ].
  apply (X13_full_reset_store 1 ts ss).
Defined.

(** ** The discipline moving average *)

Lemma recent_window_length {A : Type} (ts : list A) (i : nat) :
  (i < length ts)%nat -> length (recent_window ts i) = Nat.min (S i) 5.
Proof.
  intros H. unfold recent_window. rewrite length_firstn.
  destruct (Nat.ltb 5 (Nat.min (S i) (length ts))) eqn:E.
  - apply Nat.ltb_lt in E. rewrite length_skipn, length_firstn. lia.
  - apply Nat.ltb_ge in E. rewrite length_firstn. lia.
Qed.

(** X14. In [analytics], for the [i]-th closed trade the window
    [recent_trades] holds [min(i+1, 5)] trades, never zero, so the score's
    division is defined; they are the trades [i+1-len .. i] of the ordered
    list, the last [len] ones up to and including trade [i]; and
    [disc_count] never exceeds the window length, so the score is in
    [0, 100]. *)
Theorem X14_discipline_window (ts : list trade) (i : nat) (d : trade) :
  (i < length ts)%nat ->
  length (recent_window ts i) = Nat.min (S i) 5 /\
  (0 < length (recent_window ts i))%nat /\
  (forall j, (j < length (recent_window ts i))%nat ->
   nth j (recent_window ts i) d = nth (S i - length (recent_window ts i) + j) ts d) /\
  (fst (discipline_point ts i) <= snd (discipline_point ts i))%nat.
Proof.
  intros H. pose proof (recent_window_length ts i H) as L.
  split; [exact L | split; [lia | split]].
  - intros j Hj. rewrite L in *. unfold recent_window in *.
    rewrite length_firstn in *.
    replace (Nat.min (S i) (length ts)) with (S i) in * by lia.
    destruct (Nat.ltb 5 (S i)) eqn:E.
    + apply Nat.ltb_lt in E. rewrite nth_skipn, nth_firstn.
      destruct (Nat.ltb (S i - 5 + j) (S i)) eqn:F; [ | apply Nat.ltb_ge in F; lia].
      f_equal. lia.
    + apply Nat.ltb_ge in E. rewrite nth_firstn.
      destruct (Nat.ltb j (S i)) eqn:F; [ | apply Nat.ltb_ge in F; lia].
      f_equal. lia.
  - unfold discipline_point; cbn [fst snd]. apply filter_length_le.
Qed.

(** X14 witness: seven trades, window at the seventh. *)
Lemma X14_witness :
  let t := fun b => mkTrade 1 None CLOSED (Some WIN) (Some 100) b 0 in
  let ts := t true :: t false :: t true :: t true :: t false :: t true :: t true :: nil in
  (6 < length ts)%nat /\
  length (recent_window ts 6) = Nat.min 7 5 /\
  (0 < length (recent_window ts 6))%nat /\
  (forall j, (j < length (recent_window ts 6))%nat ->
   nth j (recent_window ts 6) (t false) = nth (7 - length (recent_window ts 6) + j) ts (t false)) /\
  (fst (discipline_point ts 6) <= snd (discipline_point ts 6))%nat.
Proof.
  intros t ts. split; [cbn; lia | ].
  apply (X14_discipline_window ts 6 (t false)). cbn; lia.
Defined.

(** ** Reopening a closed loss *)




(** ** Dashboard statistics *)

Lemma filter_disjoint_le {A : Type} (f g : A -> bool) (l : list A) :
  (forall x, f x = true -> g x = false) ->
  (length (filter f l) + length (filter g l) <= length l)%nat.
Proof.
  intros H. induction l as [|x l IH]; cbn; [lia | ].
  destruct (f x) eqn:F; [rewrite (H x F) | destruct (g x)]; cbn; lia.
Qed.

Lemma total_pnl_fold (q : list trade) :
  total_pnl (stats q)
  = fold_right (fun t a => match t_pnl t with Some c => c | None => 0 end + a) 0 q.
Proof.
  unfold stats, sql_sum; cbn [total_pnl].
  induction q as [|t q IH]; cbn [map fold_right]; [reflexivity | ].
  destruct (t_pnl t);
    destruct (fold_right _ None (map t_pnl q)); lia.
Qed.

(** X16. The counts of [stats] are consistent: wins and losses together
    never exceed the total, nor do the disciplined trades, so both rates
    are within [0, 100]; [total_pnl] is the sum of the PnLs with a missing
    PnL counted as 0, and 0 for no trade. *)
Theorem X16_stats_counts (q : list trade) :
  (wins (stats q) + losses (stats q) <= total_trades (stats q))%nat /\
  (disciplined_trades (stats q) <= total_trades (stats q))%nat /\
  total_pnl (stats q)
  = fold_right (fun t a => match t_pnl t with Some c => c | None => 0 end + a) 0 q.
Proof.
  split; [ | split; [ | apply total_pnl_fold]]; cbn [stats wins losses total_trades disciplined_trades].
  - apply filter_disjoint_le. intros t. unfold result_is.
    destruct (t_result t) as [[| |]|]; easy.
  - apply filter_length_le.
Qed.

(** The user's trades after [full_reset]: none. *)
Lemma full_reset_store_user_trades (u : Z) (ts : list trade) (ss : list strategy) :
  filter (fun t => t_user t =? u) (fst (full_reset_store u ts ss)) = nil.
Proof.
  apply filter_none. intros t Ht. unfold full_reset_store, delete_user_trades in Ht.
  cbn [fst] in Ht. apply filter_In in Ht as [Ht _]. apply filter_In in Ht as [_ Ht].
  now apply negb_true_iff in Ht.
Qed.

(** X17. After [full_reset], [stats] reports zero trades, zero wins and
    losses, zero disciplined trades and a [total_pnl] of 0, with or
    without a strategy filter. *)
Theorem X17_stats_after_full_reset (u : Z) (strategy_id : option Z)
    (ts : list trade) (ss : list strategy) :
  stats (get_queryset u strategy_id (fst (full_reset_store u ts ss)))
  = mkStats 0 0 0 0 0.
Proof.
  unfold get_queryset. rewrite full_reset_store_user_trades.
  destruct strategy_id; reflexivity.
Qed.

(** The user's trades after [populate_demo]: the twenty new ones. *)
Lemma populate_user_trades (u sid : Z) (now : datetime)
    (draws : nat -> nat * Z * bool) (ts : list trade) :
  filter (fun t => t_user t =? u) (populate_demo_store u sid now draws ts)
  = map (fun i => demo_trade u sid now (draws i)) (seq 0 20).
Proof.
  unfold populate_demo_store, delete_user_trades.
  rewrite filter_app, filter_none.
  - cbn [app]. apply forallb_filter_id, forallb_forall.
    intros t Ht. apply in_map_iff in Ht as [i [<- _]].
    rewrite demo_trade_user. apply Z.eqb_refl.
  - intros t Ht. apply filter_In in Ht as [_ Ht].
    now apply negb_true_iff in Ht.
Qed.

Lemma total_pnl_bounds (lo hi : Z) (q : list trade) :
  lo <= 0 <= hi ->
  (forall t, In t q -> exists c, t_pnl t = Some c /\ lo <= c <= hi) ->
  lo * Z.of_nat (length q) <= total_pnl (stats q) <= hi * Z.of_nat (length q).
Proof.
  intros B H. rewrite total_pnl_fold.
  induction q as [|t q IH]; cbn [fold_right length]; [lia | ].
  destruct (H t (or_introl eq_refl)) as [c [-> Hc]].
  assert (IH' := IH (fun t' Ht' => H t' (or_intror Ht'))). lia.
Qed.

(** X18. After [populate_demo], [stats] counts 20 trades, also when
    filtered by the demo strategy, and [total_pnl] lies between
    [-3000.00] (twenty losses of 150.00) and [4000.00] (twenty wins of
    200.00). *)
Theorem X18_stats_after_populate (u sid : Z) (now : datetime)
    (draws : nat -> nat * Z * bool) (ts : list trade) :
  (forall i, (i < 20)%nat -> draw_ok (draws i)) ->
  total_trades (stats (get_queryset u None (populate_demo_store u sid now draws ts))) = 20%nat /\
  total_trades (stats (get_queryset u (Some sid) (populate_demo_store u sid now draws ts))) = 20%nat /\
  -300000 <= total_pnl (stats (get_queryset u None (populate_demo_store u sid now draws ts)))
          <= 400000.
Proof.
  intros Hd. unfold get_queryset. rewrite populate_user_trades.
  split; [ | split].
  - cbn [stats total_trades]. now rewrite length_map, length_seq.
  - rewrite forallb_filter_id.
    + cbn [stats total_trades]. now rewrite length_map, length_seq.
    + apply forallb_forall. intros t Ht. apply in_map_iff in Ht as [i [<- _]].
      destruct (draws i) as [[k n] f]. cbn. apply Z.eqb_refl.
  - assert (L : Z.of_nat (length (map (fun i => demo_trade u sid now (draws i)) (seq 0 20))) = 20)
      by (now rewrite length_map, length_seq).
    pose proof (total_pnl_bounds (-15000) 20000
                  (map (fun i => demo_trade u sid now (draws i)) (seq 0 20))) as B.
    rewrite L in B. apply B; [lia | ].
    intros t Ht. apply in_map_iff in Ht as [i [<- Hi]]. apply in_seq in Hi.
    specialize (Hd i ltac:(lia)).
    destruct (draws i) as [[k n] f]. destruct Hd as [_ [HW HL]].
    unfold demo_trade; cbn [t_pnl]. eexists; split; [reflexivity | ].
    destruct (demo_result k); cbn [demo_pnl].
    + specialize (HW eq_refl). lia.
    + specialize (HL eq_refl). lia.
    + lia.
Qed.

(** X18 witness: the draws of [X12_witness]. *)
Lemma X18_witness :
  let draws := fun i : nat =>
    (Nat.modulo i 4,
     if Nat.eqb (Nat.modulo i 4) 1 then -150 else 50,
     true) in
  (forall i, (i < 20)%nat -> draw_ok (draws i)) /\
  total_trades (stats (get_queryset 1 None (populate_demo_store 1 7 oct16_1100 draws nil))) = 20%nat /\
  total_trades (stats (get_queryset 1 (Some 7) (populate_demo_store 1 7 oct16_1100 draws nil))) = 20%nat /\
  -300000 <= total_pnl (stats (get_queryset 1 None (populate_demo_store 1 7 oct16_1100 draws nil)))
          <= 400000.
Proof.
  intros draws.
  assert (Hd : forall i, (i < 20)%nat -> draw_ok (draws i)).
  { intros i Hi.
    do 20 (destruct i as [|i];
      [ unfold draws, draw_ok; cbn; repeat split; intros; first [lia | discriminate] | ]).
    lia. }
  split; [exact Hd | apply X18_stats_after_populate; exact Hd].
Defined.

(** ** What the resets cannot lift *)

(** X19. [reset_demo] and [full_reset] only call [reset_daily_stats]: when
    the monthly cap is reached within the current month and year (and the
    daily limits are positive), the very next [check_discipline] on the
    same instant locks the account again on the monthly cap. *)
Theorem X19_reset_keeps_monthly_cap (p : profile) (now : datetime) :
  monthly_stale (date_of now) p = false -> yearly_stale (date_of now) p = false ->
  0 < max_daily_loss p -> 0 < max_trades_per_day p ->
  max_trades_monthly p <= trades_this_month p ->
  forall q, q = reset_demo p now \/ q = full_reset (Some p) now ->
  check_discipline q now
  = (lock_account ("Max Monthly Trades (" ++ str_int (max_trades_monthly p)
                   ++ ") hit.") now q,
     (false, "Max Monthly Trades Limit Exceeded")).
Proof.
  intros M Y L T C q Hq.
  assert (Q : q = reset_daily_stats now p) by (destruct Hq; subst; reflexivity).
  pose proof (stale_reset_daily now (date_of now) p) as [D1 [M1 Y1]].
  rewrite M in M1; rewrite Y in Y1.
  rewrite Q. unfold check_discipline; cbv zeta.
  rewrite (periodic_resets_noop now _ D1 M1 Y1).
  cbn [is_locked reset_daily_stats max_daily_loss current_daily_loss
       max_trades_per_day trades_today max_trades_monthly trades_this_month].
  rewrite (proj2 (Z.leb_gt _ _) L), (proj2 (Z.leb_gt _ _) T),
    (proj2 (Z.leb_le _ _) C).
  reflexivity.
Qed.

(** X19 witness: an account locked on the monthly cap of 100 trades,
    reset from the demo button, is locked again. *)
Lemma X19_witness :
  let p := mkProfile 20000 5 100 1000 0 0 100 100 true
             (Some "Max Monthly Trades (100) hit.") (Some oct16_1100)
             oct16 oct16 oct16 in
  (monthly_stale (date_of oct16_1100) p = false /\
   yearly_stale (date_of oct16_1100) p = false /\
   0 < max_daily_loss p /\ 0 < max_trades_per_day p /\
   max_trades_monthly p <= trades_this_month p) /\
  check_discipline (reset_demo p oct16_1100) oct16_1100
  = (lock_account ("Max Monthly Trades (" ++ str_int (max_trades_monthly p)
                   ++ ") hit.") oct16_1100 (reset_demo p oct16_1100),
     (false, "Max Monthly Trades Limit Exceeded")).
Proof.
  intros p.
  split; [repeat split; first [reflexivity | cbn; lia] | ].
  apply X19_reset_keeps_monthly_cap;
    [reflexivity | reflexivity | cbn; lia | cbn; lia | cbn; lia | left; reflexivity].
Defined.

(** ** The behavioural log of [insights] *)

Lemma count_char_app (c : ascii) (a b : string) :
  count_char c (a ++ b) = (count_char c a + count_char c b)%nat.
Proof. induction a as [|x a IH]; cbn; [reflexivity | rewrite IH; lia]. Qed.

Lemma digit_char_not_newline (r : Z) :
  0 <= r < 10 -> Ascii.eqb (digit_char r) newline = false.
Proof.
  intros H.
  assert (r = 0 \/ r = 1 \/ r = 2 \/ r = 3 \/ r = 4 \/ r = 5 \/ r = 6 \/
          r = 7 \/ r = 8 \/ r = 9) as C by lia.
  repeat destruct C as [-> | C]; [reflexivity .. | subst; reflexivity].
Qed.

Lemma digits_aux_no_newline (fuel : nat) (n : Z) (acc : string) :
  count_char newline (digits_aux fuel n acc) = count_char newline acc.
Proof.
  revert n acc. induction fuel as [|f IH]; intros n acc; cbn [digits_aux];
    [reflexivity | ].
  assert (E : count_char newline (String (digit_char (n mod 10)) acc)
              = count_char newline acc).
  { cbn [count_char]. rewrite digit_char_not_newline; [reflexivity | ].
    apply Z.mod_pos_bound. lia. }
  destruct (n / 10 =? 0); [exact E | rewrite IH; exact E].
Qed.

Lemma str_nat_no_newline (n : Z) : count_char newline (str_nat n) = 0%nat.
Proof. apply digits_aux_no_newline. Qed.

Lemma str_money_no_newline (c : Z) : count_char newline (str_money c) = 0%nat.
Proof.
  unfold str_money. rewrite !count_char_app, !str_nat_no_newline.
  destruct (c <? 0), (Z.abs c mod 100 <? 10); reflexivity.
Qed.

Lemma str_date_no_newline (d : date) : count_char newline (str_date d) = 0%nat.
Proof.
  unfold str_date, pad2, pad4. rewrite !count_char_app, !str_nat_no_newline.
  destruct (year d <? 10), (year d <? 100), (year d <? 1000),
    (month d <? 10), (day d <? 10); reflexivity.
Qed.

Lemma log_line_one_newline (r : log_row) :
  count_char newline (row_notes r) = 0%nat ->
  (forall n, row_strategy_name r = Some n -> count_char newline n = 0%nat) ->
  count_char newline (log_line r) = 1%nat.
Proof.
  intros N S. unfold log_line.
  rewrite !count_char_app, str_date_no_newline, N.
  assert (P : count_char newline (str_pnl (t_pnl (row_trade r))) = 0%nat)
    by (destruct (t_pnl (row_trade r)); [apply str_money_no_newline | reflexivity]).
  rewrite P.
  destruct (row_strategy_name r) as [n | ] eqn:E; [rewrite (S n eq_refl) | ];
    destruct (t_result (row_trade r)) as [[| |] | ];
    destruct (t_followed_plan (row_trade r)); reflexivity.
Qed.

Lemma log_fold_count (l : list log_row) (acc : string) :
  (forall r, In r l -> count_char newline (log_line r) = 1%nat) ->
  count_char newline (fold_left (fun acc r => acc ++ log_line r) l acc)
  = (count_char newline acc + length l)%nat.
Proof.
  revert acc. induction l as [|r l IH]; intros acc H; cbn [fold_left length];
    [lia | ].
  rewrite IH by (intros r' Hr'; apply H; now right).
  rewrite count_char_app, (H r (or_introl eq_refl)). lia.
Qed.

(** X20. [insights] answers with its fixed "Insufficient data" response only
    when the user has no trade at all (with one trade it already calls the AI
    service, though the response asks for at least 5); otherwise the log
    passed to the service holds the header line and one line per trade, for
    the 30 most recent trades, provided no note and no strategy name holds
    a line break. *)
Theorem X20_insights_log (rows : list log_row) :
  (forall r, In r rows ->
   count_char newline (row_notes r) = 0%nat /\
   (forall n, row_strategy_name r = Some n -> count_char newline n = 0%nat)) ->
  (insights rows = InsightsFallback <-> rows = nil) /\
  (rows <> nil -> exists trade_data,
     insights rows = AnalyzeBehavior trade_data /\
     count_char newline trade_data = S (Nat.min 30 (length rows))).
Proof.
  intros H. split.
  - unfold insights. destruct rows as [|r rows]; cbn [firstn]; [tauto | ].
    split; discriminate.
  - intros NE. unfold insights.
    destruct (firstn 30 rows) as [|r l] eqn:F.
    + destruct rows; [congruence | discriminate].
    + eexists; split; [reflexivity | ].
      rewrite <- F, log_fold_count, length_firstn; [reflexivity | ].
      intros r' Hr'.
      assert (Hin : In r' rows)
        by (rewrite <- (firstn_skipn 30 rows); apply in_or_app; now left).
      destruct (H r' Hin) as [N S]. now apply log_line_one_newline.
Qed.

(** X20 witness: one trade without strategy, already sent to the service. *)
Lemma X20_witness :
  let rows := mkRow (mkTrade 1 None CLOSED (Some LOSS) (Some (-4250)) false oct16_1100)
                None "chased the move" :: nil in
  (forall r, In r rows ->
   count_char newline (row_notes r) = 0%nat /\
   (forall n, row_strategy_name r = Some n -> count_char newline n = 0%nat)) /\
  (insights rows = InsightsFallback <-> rows = nil) /\
  (rows <> nil -> exists trade_data,
     insights rows = AnalyzeBehavior trade_data /\
     count_char newline trade_data = S (Nat.min 30 (length rows))).
Proof.
  intros rows.
  assert (H : forall r, In r rows ->
     count_char newline (row_notes r) = 0%nat /\
     (forall n, row_strategy_name r = Some n -> count_char newline n = 0%nat)).
  { intros r [<- | []]. split; [reflexivity | discriminate]. }
  split; [exact H | apply X20_insights_log; exact H].
Defined.
